(** * XMRig GUI: settings store and process controller

    A shallow embedding of [xmrig_gui_v0.1.py], the tabbed form that edits
    the command-line options of the XMRig miner, saves them as JSON and
    starts or stops the miner inside a terminal.

    Conventions of the embedding:
    - a Python [str] is a [string]; its characters stand for the code
      points 0..255;
    - a Python [dict] is an association list in insertion order;
    - a widget is the value it displays (each widget of the form is held
      by exactly one registry entry, so there is no aliasing to track);
    - message boxes, [subprocess.Popen] and [Popen.terminate] are recorded
      as events; an exception that no handler catches is returned next to
      the state reached when it was raised;
    - [json.dump] and [json.load] are parameters of the settings store;
      a codec for flat documents of strings and integers, proved to read
      back what it writes, instantiates them. *)

From Stdlib Require Import List String Ascii ZArith NArith Bool Lia.
From Stdlib Require Import DecimalString DecimalPos.
Import ListNotations.

Local Open Scope string_scope.
Local Open Scope list_scope.

(** ** Python strings *)

Module PyStr.

(** [str.isspace] on the code points below 256. *)
Definition isspace (c : ascii) : bool :=
  let n := N_of_ascii c in
  ((9 <=? n) && (n <=? 13) || (28 <=? n) && (n <=? 32)
   || (n =? 133) || (n =? 160))%N.

Fixpoint lstrip_by (p : ascii -> bool) (s : string) : string :=
  match s with
  | EmptyString => EmptyString
  | String c r => if p c then lstrip_by p r else s
  end.

Fixpoint rstrip_by (p : ascii -> bool) (s : string) : string :=
  match s with
  | EmptyString => EmptyString
  | String c r =>
      match rstrip_by p r with
      | EmptyString => if p c then EmptyString else String c EmptyString
      | r' => String c r'
      end
  end.

(** [s.strip()] *)
Definition strip (s : string) : string :=
  rstrip_by isspace (lstrip_by isspace s).

(** [sep.join(parts)] *)
Definition join (sep : string) (parts : list string) : string :=
  String.concat sep parts.

(** The decimal text of an integer, as [str(n)] and an f-string give. *)
Definition of_int (n : Z) : string :=
  NilZero.string_of_int (Z.to_int n).

(** *** [int(s)] on a string, base 10 *)

Definition is_digit (c : ascii) : bool :=
  let n := N_of_ascii c in ((48 <=? n) && (n <=? 57))%N.

Definition digit_value (c : ascii) : Z :=
  Z.of_N (N_of_ascii c) - 48.

(** The blanks [int] skips around the number. *)
Definition int_space (c : ascii) : bool :=
  let n := N_of_ascii c in
  ((9 <=? n) && (n <=? 13) || (n =? 32) || (n =? 133) || (n =? 160))%N.

(** Digits, with single underscores allowed between two digits. *)
Fixpoint int_digits (s : string) (prev_digit : bool) (acc : Z) : option Z :=
  match s with
  | EmptyString => if prev_digit then Some acc else None
  | String c r =>
      if is_digit c then int_digits r true (10 * acc + digit_value c)
      else if Ascii.eqb c "_" && prev_digit then int_digits r false acc
      else None
  end.

Definition to_int (s : string) : option Z :=
  match rstrip_by int_space (lstrip_by int_space s) with
  | String "-" r => option_map Z.opp (int_digits r false 0)
  | String "+" r => int_digits r false 0
  | body => int_digits body false 0
  end.

End PyStr.

(** ** Python values held by widgets and by the settings document *)

(** What an input gives and what [save_settings] stores: a string or an
    integer.  A document is taken to hold such values only; what else a
    JSON file can hold (lists, floats, booleans, null, objects) is
    outside the model. *)
Inductive pyval : Type :=
| PStr (s : string)
| PInt (n : Z).

(** Truth value of [value] in [if value]. *)
Definition truthy (value : pyval) : bool :=
  match value with
  | PStr s => negb (s =? "")
  | PInt n => negb (n =? 0)%Z
  end.

(** Text of [value] inside an f-string, and as Tk receives it. *)
Definition py_str (value : pyval) : string :=
  match value with
  | PStr s => s
  | PInt n => PyStr.of_int n
  end.

(** The exceptions the methods let escape on such documents. *)
Inductive exn : Type :=
| ValueError
| JSONDecodeError.

(** [int(value)]: an [int] is itself, a string is parsed or raises. *)
Definition py_int (value : pyval) : exn + Z :=
  match value with
  | PInt n => inr n
  | PStr s => match PyStr.to_int s with
              | Some n => inr n
              | None => inl ValueError
              end
  end.

(** ** Python dictionaries, in insertion order *)

Module PyDict.
Section Dict.
Context {V : Type}.

Definition dict : Type := list (string * V).

Definition empty : dict := [].

Definition keys (d : dict) : list string := map fst d.

(** [d.items()] *)
Definition items (d : dict) : list (string * V) := d.

Fixpoint get (d : dict) (k : string) : option V :=
  match d with
  | [] => None
  | (k', v) :: rest => if k' =? k then Some v else get rest k
  end.

(** [d.get(k, default)] *)
Definition get_default (d : dict) (k : string) (default : V) : V :=
  match get d k with
  | Some v => v
  | None => default
  end.

(** [d[k] = v]: an existing key keeps its place, a new one goes last. *)
Fixpoint set (d : dict) (k : string) (v : V) : dict :=
  match d with
  | [] => [(k, v)]
  | (k', v') :: rest =>
      if k' =? k then (k', v) :: rest else (k', v') :: set rest k v
  end.

(** [d.update(other)], one [**other] of a dict display. *)
Definition update (d other : dict) : dict :=
  fold_left (fun acc item => set acc (fst item) (snd item)) other d.

(** [{**d1, **d2, ...}] *)
Definition display (parts : list dict) : dict :=
  fold_left update parts empty.
End Dict.
Arguments dict V : clear implicits.
End PyDict.

(** ** Widgets *)

(** The three kinds of input the form creates, with what they display.
    An [Entry] is a [tk.Entry] in its normal state, an [IntVar] the
    variable of a [tk.Checkbutton], a [Combobox] a [ttk.Combobox] created
    with [state="readonly"]. *)
Inductive widget : Type :=
| Entry (text : string)
| IntVar (value : Z)
| Combobox (values : list string) (text : string).

Inductive tk_class : Type :=
| tk_Entry
| tk_IntVar
| ttk_Combobox.

(** [isinstance(widget, cls)].  [ttk.Combobox] derives from [ttk.Entry],
    which derives from [tkinter.Entry]: a combobox is an instance of
    [tk.Entry] too. *)
Definition isinstance (w : widget) (cls : tk_class) : bool :=
  match w, cls with
  | Entry _, tk_Entry => true
  | Combobox _ _, tk_Entry => true
  | Combobox _ _, ttk_Combobox => true
  | IntVar _, tk_IntVar => true
  | _, _ => false
  end.

Module Widget.

(** [widget.get()] *)
Definition get (w : widget) : pyval :=
  match w with
  | Entry text => PStr text
  | IntVar value => PInt value
  | Combobox _ text => PStr text
  end.

(** [widget.delete(0, tk.END)].  The entry commands of a read-only
    widget change nothing. *)
Definition delete_all (w : widget) : widget :=
  match w with
  | Entry _ => Entry ""
  | other => other
  end.

(** [widget.insert(0, value)] *)
Definition insert0 (w : widget) (value : pyval) : widget :=
  match w with
  | Entry text => Entry (py_str value ++ text)%string
  | other => other
  end.

(** [widget.set(value)]: an [IntVar] takes the integer it is given, a
    [Combobox] displays the text of the value (its [set] is not an entry
    command and works when read-only). *)
Definition set (w : widget) (value : pyval) : widget :=
  match w, value with
  | IntVar _, PInt n => IntVar n
  | Combobox values _, _ => Combobox values (py_str value)
  | other, _ => other
  end.

End Widget.

(** ** The option catalog *)

(** What follows [label, param, key] in a row of the catalog: a word
    ("checkbox", "dropdown" or a default text) or a list of choices. *)
Inductive extra : Type :=
| XText (s : string)
| XChoices (choices : list string).

Record option_row : Type := Row {
  label_text : string;
  param : string;
  key : string;
  widget_type : list extra
}.

Definition network_options : list option_row :=
  [ Row "URL" "-o" "url"
      [XText "stratum+tcp://randomxmonero.auto.nicehash.com:9200"];
    Row "Coin" "--coin" "coin" [];
    Row "Username" "-u" "user" [XText "38bj4uu8uDsnC5NjoeGb8TMviBCEtMiaet"];
    Row "Password" "-p" "pass" [];
    Row "Userpass" "-O" "userpass" [];
    Row "Proxy" "-x" "proxy" [];
    Row "Keepalive" "-k" "keepalive" [XText "checkbox"];
    Row "Nicehash" "--nicehash" "nicehash" [XText "checkbox"];
    Row "Rig ID" "--rig-id" "rig-id" [];
    Row "Algorithm" "-a" "algo"
      [XText "dropdown";
       XChoices
         ["gr"; "rx/graft"; "cn/upx2"; "argon2/chukwav2"; "cn/ccx"; "kawpow";
          "rx/keva"; "cn-pico/tlo"; "rx/sfx"; "rx/arq"; "rx/0";
          "argon2/chukwa"; "argon2/ninja"; "rx/wow"; "cn/fast"; "cn/rwz";
          "cn/zls"; "cn/double"; "cn/r"; "cn-pico"; "cn/half"; "cn/2";
          "cn/xao"; "cn/rto"; "cn-heavy/tube"; "cn-heavy/xhv"; "cn-heavy/0";
          "cn/1"; "cn-lite/1"; "cn-lite/0"; "cn/0"]] ].

Definition cpu_options : list option_row :=
  [ Row "Disable CPU" "--no-cpu" "no-cpu" [XText "checkbox"];
    Row "Threads" "-t" "threads" [];
    Row "CPU Affinity" "--cpu-affinity" "cpu-affinity" [];
    Row "Algorithm Variation" "-v" "av" [];
    Row "CPU Priority" "--cpu-priority" "cpu-priority" [];
    Row "Max Threads Hint" "--cpu-max-threads-hint" "cpu-max-threads-hint" [];
    Row "CPU Memory Pool" "--cpu-memory-pool" "cpu-memory-pool" [];
    Row "CPU No Yield" "--cpu-no-yield" "cpu-no-yield" [XText "checkbox"];
    Row "No Huge Pages" "--no-huge-pages" "no-huge-pages" [XText "checkbox"];
    Row "Huge Page Size" "--hugepage-size" "hugepage-size" [];
    Row "Huge Pages JIT" "--huge-pages-jit" "huge-pages-jit"
      [XText "checkbox"];
    Row "ASM Optimizations" "--asm" "asm"
      [XText "dropdown";
       XChoices ["auto"; "none"; "intel"; "ryzen"; "bulldozer"]];
    Row "Argon2 Implementation" "--argon2-impl" "argon2-impl"
      [XText "dropdown";
       XChoices ["x86_64"; "SSE2"; "SSSE3"; "XOP"; "AVX2"; "AVX-512F"]];
    Row "RandomX Init" "--randomx-init" "randomx-init" [];
    Row "RandomX No NUMA" "--randomx-no-numa" "randomx-no-numa"
      [XText "checkbox"];
    Row "RandomX Mode" "--randomx-mode" "randomx-mode"
      [XText "dropdown"; XChoices ["auto"; "fast"; "light"]];
    Row "RandomX 1GB Pages" "--randomx-1gb-pages" "randomx-1gb-pages"
      [XText "checkbox"];
    Row "RandomX MSR" "--randomx-wrmsr" "randomx-wrmsr" [];
    Row "RandomX No RDMSR" "--randomx-no-rdmsr" "randomx-no-rdmsr"
      [XText "checkbox"];
    Row "RandomX Cache QoS" "--randomx-cache-qos" "randomx-cache-qos"
      [XText "checkbox"] ].

Definition api_options : list option_row :=
  [ Row "Worker ID" "--api-worker-id" "api-worker-id" [];
    Row "Instance ID" "--api-id" "api-id" [];
    Row "Host" "--http-host" "http-host" [XText "127.0.0.1"];
    Row "Port" "--http-port" "http-port" [];
    Row "Access Token" "--http-access-token" "http-access-token" [];
    Row "No Restricted" "--http-no-restricted" "http-no-restricted"
      [XText "checkbox"] ].

Definition tls_options : list option_row :=
  [ Row "TLS Gen" "--tls-gen" "tls-gen" [] ].

Definition logging_options : list option_row :=
  [ Row "Syslog" "-S" "syslog" [XText "checkbox"] ].

Definition misc_options : list option_row := [].

(** ** The form renderer *)

(** The widget [add_options] creates for one row.  [None] stands for a
    row the catalog never holds: a dropdown without a non-empty list of
    choices, where Python raises [IndexError], and a list where a word
    is expected, which is not modelled. *)
Definition new_widget (row : option_row) : option widget :=
  match widget_type row with
  | [] => Some (Entry "")
  | XText word :: more =>
      if word =? "checkbox" then Some (IntVar 0)
      else if word =? "dropdown" then
        match more with
        | XChoices (first :: others) :: _ =>
            Some (Combobox (first :: others) first)
        | _ => None
        end
      else Some (Entry word)
  | XChoices _ :: _ => None
  end.

Fixpoint add_options (entries : PyDict.dict widget) (options : list option_row)
  : option (PyDict.dict widget) :=
  match options with
  | [] => Some entries
  | row :: rest =>
      match new_widget row with
      | Some w => add_options (PyDict.set entries (key row) w) rest
      | None => None
      end
  end.

Definition add_tab (entries : PyDict.dict widget) (options : list option_row)
  : option (PyDict.dict widget) :=
  add_options entries options.

(** ** The application state *)

Definition handle : Type := nat.

Record XMRigGUI : Type := GUI {
  settings : PyDict.dict pyval;
  network_entries : PyDict.dict widget;
  cpu_entries : PyDict.dict widget;
  api_entries : PyDict.dict widget;
  tls_entries : PyDict.dict widget;
  logging_entries : PyDict.dict widget;
  misc_entries : PyDict.dict widget;
  process : option handle
}.

(** [__init__]: empty registries, no process, then one tab per group. *)
Definition init : option XMRigGUI :=
  match add_tab PyDict.empty network_options,
        add_tab PyDict.empty cpu_options,
        add_tab PyDict.empty api_options,
        add_tab PyDict.empty tls_options,
        add_tab PyDict.empty logging_options,
        add_tab PyDict.empty misc_options with
  | Some network, Some cpu, Some api, Some tls, Some logging, Some misc =>
      Some (GUI PyDict.empty network cpu api tls logging misc None)
  | _, _, _, _, _, _ => None
  end.

(** The list [update_ui_with_settings] walks. *)
Definition tabs (self : XMRigGUI) : list (PyDict.dict widget) :=
  [ network_entries self; cpu_entries self; api_entries self;
    tls_entries self; logging_entries self; misc_entries self ].

Definition with_tabs (self : XMRigGUI) (ts : list (PyDict.dict widget))
  : XMRigGUI :=
  match ts with
  | [network; cpu; api; tls; logging; misc] =>
      GUI (settings self) network cpu api tls logging misc (process self)
  | _ => self
  end.

Definition with_settings (self : XMRigGUI) (doc : PyDict.dict pyval)
  : XMRigGUI :=
  GUI doc (network_entries self) (cpu_entries self) (api_entries self)
      (tls_entries self) (logging_entries self) (misc_entries self)
      (process self).

Definition with_process (self : XMRigGUI) (p : option handle) : XMRigGUI :=
  GUI (settings self) (network_entries self) (cpu_entries self)
      (api_entries self) (tls_entries self) (logging_entries self)
      (misc_entries self) p.

(** The merged registry [{**network, **cpu, **api, **tls, **logging,
    **misc}] of [save_settings] and [run_xmrig]. *)
Definition merged_entries (self : XMRigGUI) : PyDict.dict widget :=
  PyDict.display (tabs self).

(** ** Effects *)

Inductive event : Type :=
| showerror (title message : string)
| showwarning (title message : string)
| showinfo (title message : string)
| Popen (argv : list string)
| terminate (p : handle).

(** What a method leaves behind: the object, what it showed and called,
    and the exception it let escape, if any. *)
Record outcome : Type := Outcome {
  after : XMRigGUI;
  events : list event;
  raised : option exn
}.

(** What a method sees of the operating system. *)
Record os : Type := OS {
  (** [p.poll()]: [None] while the process runs, its exit code after. *)
  poll : handle -> option Z;
  (** whether [mate-terminal] is found; without it [Popen] raises
      [FileNotFoundError] *)
  mate_terminal : bool;
  (** the child a successful [Popen] gives *)
  child : handle
}.

(** What [json.load] makes of the text of a file: a flat object of
    strings and integers, or a text it rejects with [JSONDecodeError].
    A text that is valid JSON of another shape is outside the model. *)
Inductive loaded : Type :=
| Document (doc : PyDict.dict pyval)
| Malformed.

(** ** update_ui_with_settings *)

(** The body of the inner loop, for one [key, widget] of a tab. *)
Definition update_widget (doc : PyDict.dict pyval) (key : string)
  (w : widget) : exn + widget :=
  let value := PyDict.get_default doc key (PStr "") in
  if isinstance w tk_Entry then
    inr (Widget.insert0 (Widget.delete_all w) value)
  else if isinstance w tk_IntVar then
    if truthy value then
      match py_int value with
      | inr n => inr (Widget.set w (PInt n))
      | inl e => inl e
      end
    else inr (Widget.set w (PInt 0))
  else if isinstance w ttk_Combobox then
    inr (Widget.set w (if truthy value then value else Widget.get w))
  else inr w.

(** The inner loop: the widgets of one tab, in order, changed in place
    until one raises. *)
Fixpoint update_entries (doc : PyDict.dict pyval)
  (tab_entries : PyDict.dict widget) : PyDict.dict widget * option exn :=
  match tab_entries with
  | [] => ([], None)
  | (key, w) :: rest =>
      match update_widget doc key w with
      | inr w' =>
          let (rest', e) := update_entries doc rest in ((key, w') :: rest', e)
      | inl e => ((key, w) :: rest, Some e)
      end
  end.

(** The outer loop over the tabs. *)
Fixpoint update_tabs (doc : PyDict.dict pyval)
  (ts : list (PyDict.dict widget))
  : list (PyDict.dict widget) * option exn :=
  match ts with
  | [] => ([], None)
  | tab_entries :: rest =>
      match update_entries doc tab_entries with
      | (tab', None) =>
          let (rest', e) := update_tabs doc rest in (tab' :: rest', e)
      | (tab', Some e) => (tab' :: rest, Some e)
      end
  end.

Definition update_ui_with_settings (self : XMRigGUI) : outcome :=
  let (ts, e) := update_tabs (settings self) (tabs self) in
  Outcome (with_tabs self ts) [] e.

(** ** run_xmrig and stop_xmrig *)

(** The body of the loop that collects the arguments. *)
Definition collect_step (command : list string) (item : string * widget)
  : list string :=
  let (key, w) := item in
  let value := if isinstance w tk_Entry then Widget.get w else Widget.get w in
  if isinstance w tk_IntVar && truthy value then
    command ++ [("--" ++ key)%string]
  else if truthy value then
    command ++ [("--" ++ key ++ "=" ++ py_str value)%string]
  else command.

(** The command line: ["./xmrig"] and what the merged registry adds. *)
Definition collect (entries : list (string * widget)) (command : list string)
  : list string :=
  fold_left collect_step entries command.

Definition build_command (self : XMRigGUI) : list string :=
  collect (PyDict.items (merged_entries self)) ["./xmrig"].

(** The argument vector given to [subprocess.Popen]. *)
Definition terminal_argv (command : list string) : list string :=
  [ "mate-terminal"; "--"; "bash"; "-c";
    (PyStr.join " " command ++ "; exec bash")%string ].

Definition run_xmrig (sys : os) (self : XMRigGUI) : outcome :=
  let running :=
    match process self with
    | Some p => match poll sys p with None => true | Some _ => false end
    | None => false
    end in
  if running then
    Outcome self [showwarning "Warning" "XMRig is already running."] None
  else
    let argv := terminal_argv (build_command self) in
    if mate_terminal sys then
      Outcome (with_process self (Some (child sys))) [Popen argv] None
    else
      Outcome self
        [Popen argv;
         showerror "Error" "mate-terminal is not installed or not found."]
        None.

Definition stop_xmrig (self : XMRigGUI) : outcome :=
  match process self with
  | Some p =>
      Outcome (with_process self None)
        [terminate p; showinfo "Info" "XMRig stopped."] None
  | None =>
      Outcome self [showwarning "Warning" "XMRig is not running."] None
  end.

(** ** save_settings and load_settings *)

Section SettingsStore.

(** The text [json.dump(doc, f, indent=4)] writes and what [json.load]
    reads back from a text. *)
Variable json_dump : PyDict.dict pyval -> string.
Variable json_load : string -> loaded.

(** The body of the loop of [save_settings]. *)
Definition save_step (doc : PyDict.dict pyval) (item : string * widget)
  : PyDict.dict pyval :=
  let (key, entry) := item in
  let value :=
    if isinstance entry tk_Entry || isinstance entry ttk_Combobox
    then Widget.get entry else Widget.get entry in
  let blank :=
    match value with
    | PStr s => PyStr.strip s =? ""
    | PInt _ => false
    end in
  if blank then doc else PyDict.set doc key value.

(** The document [save_settings] collects. *)
Definition capture (self : XMRigGUI) : PyDict.dict pyval :=
  fold_left save_step (PyDict.items (merged_entries self)) PyDict.empty.

(** [save_settings]: the object with its new document, and the text
    written to [xmrig_parameters.json]. *)
Definition save_settings (self : XMRigGUI) : XMRigGUI * string :=
  let doc := capture self in
  (with_settings self doc, json_dump doc).

(** [load_settings], given the text of [xmrig_parameters.json] or
    [None] when there is no such file. *)
Definition load_settings (file : option string) (self : XMRigGUI)
  : outcome :=
  match file with
  | None => Outcome self [showerror "Error" "No parameter file found."] None
  | Some text =>
      match json_load text with
      | Malformed => Outcome self [] (Some JSONDecodeError)
      | Document doc => update_ui_with_settings (with_settings self doc)
      end
  end.

(** Save, then load the file just written. *)
Definition save_then_load (self : XMRigGUI) : outcome :=
  load_settings (Some (snd (save_settings self))) (fst (save_settings self)).

End SettingsStore.

(** ** A JSON codec for flat documents

    The text [json.dump] writes for a flat document of strings and
    integers with [indent=4], and a reader of such texts.  The results
    on the store are stated for any codec; this one instantiates them.
    The reader stands for [json.load] on flat objects of strings and
    integers and on the texts it rejects; it answers [Malformed] as well
    for valid JSON of another shape, which the model leaves out. *)

Module Json.

(** The double quote. *)
Definition dquote : ascii := ascii_of_N 34.

Definition hex_digit (n : N) : ascii :=
  if (n <? 10)%N then ascii_of_N (48 + n) else ascii_of_N (87 + n).

(** [\u00XX] *)
Definition escape_code (c : ascii) : string :=
  let n := N_of_ascii c in
  String "\"
    (String "u"
       (String "0"
          (String "0"
             (String (hex_digit (n / 16))
                (String (hex_digit (n mod 16)) EmptyString))))).

Definition two (a b : ascii) : string := String a (String b EmptyString).

Definition escape (c : ascii) : string :=
  let n := N_of_ascii c in
  if (n =? 34)%N then two "\" dquote
  else if (n =? 92)%N then two "\" "\"
  else if (n =? 10)%N then two "\" "n"
  else if (n =? 13)%N then two "\" "r"
  else if (n =? 9)%N then two "\" "t"
  else if (n =? 8)%N then two "\" "b"
  else if (n =? 12)%N then two "\" "f"
  else if ((n <? 32) || (126 <? n))%N then escape_code c
  else String c EmptyString.

Fixpoint escape_all (s : string) : string :=
  match s with
  | EmptyString => EmptyString
  | String c r => (escape c ++ escape_all r)%string
  end.

Definition quote : string := String dquote EmptyString.

Definition dump_string (s : string) : string :=
  (quote ++ escape_all s ++ quote)%string.

Definition dump_value (v : pyval) : string :=
  match v with
  | PStr s => dump_string s
  | PInt n => PyStr.of_int n
  end.

Definition newline : string := String (ascii_of_N 10) EmptyString.

Definition dump_item (item : string * pyval) : string :=
  ("    " ++ dump_string (fst item) ++ ": " ++ dump_value (snd item))%string.

Definition dump (doc : PyDict.dict pyval) : string :=
  match doc with
  | [] => "{}"
  | _ =>
      ("{" ++ newline
       ++ String.concat ("," ++ newline) (map dump_item doc)
       ++ newline ++ "}")%string
  end.

(** *** Reading *)

Definition is_ws (c : ascii) : bool :=
  let n := N_of_ascii c in
  ((n =? 32) || (n =? 10) || (n =? 13) || (n =? 9))%N.

Definition skip_ws (s : string) : string := PyStr.lstrip_by is_ws s.

Definition hex_value (c : ascii) : option N :=
  let n := N_of_ascii c in
  if ((48 <=? n) && (n <=? 57))%N then Some (n - 48)%N
  else if ((97 <=? n) && (n <=? 102))%N then Some (n - 87)%N
  else if ((65 <=? n) && (n <=? 70))%N then Some (n - 55)%N
  else None.

(** The character a [\uXXXX] escape names, when below 256. *)
Definition unescape_code (a b c d : ascii) : option ascii :=
  match hex_value a, hex_value b, hex_value c, hex_value d with
  | Some 0%N, Some 0%N, Some h, Some l => Some (ascii_of_N (16 * h + l))
  | _, _, _, _ => None
  end.

(** The rest of a string literal after its opening quote: the string
    and the text after the closing quote. *)
Fixpoint load_string (s : string) : option (string * string) :=
  match s with
  | EmptyString => None
  | String c r =>
      if Ascii.eqb c dquote then Some (EmptyString, r)
      else if Ascii.eqb c "\" then
        match r with
        | String "u" (String h1 (String h2 (String h3 (String h4 r')))) =>
            match unescape_code h1 h2 h3 h4, load_string r' with
            | Some x, Some (body, rest) => Some (String x body, rest)
            | _, _ => None
            end
        | String e r' =>
            let plain :=
              if Ascii.eqb e "n" then Some (ascii_of_N 10)
              else if Ascii.eqb e "r" then Some (ascii_of_N 13)
              else if Ascii.eqb e "t" then Some (ascii_of_N 9)
              else if Ascii.eqb e "b" then Some (ascii_of_N 8)
              else if Ascii.eqb e "f" then Some (ascii_of_N 12)
              else if Ascii.eqb e dquote then Some e
              else if Ascii.eqb e "\" then Some e
              else if Ascii.eqb e "/" then Some e
              else None in
            match plain, load_string r' with
            | Some x, Some (body, rest) => Some (String x body, rest)
            | _, _ => None
            end
        | EmptyString => None
        end
      else if (N_of_ascii c <? 32)%N then None
      else
        match load_string r with
        | Some (body, rest) => Some (String c body, rest)
        | None => None
        end
  end.

(** The digits at the head of a text, and the text after them. *)
Fixpoint load_digits (s : string) (acc : Z) (seen : bool)
  : option (Z * string) :=
  match s with
  | String c r =>
      if PyStr.is_digit c
      then load_digits r (10 * acc + PyStr.digit_value c) true
      else if seen then Some (acc, s) else None
  | EmptyString => if seen then Some (acc, s) else None
  end.

(** A zero followed by a digit: JSON allows no such number. *)
Definition leading_zero (s : string) : bool :=
  match s with
  | String "0" (String d _) => PyStr.is_digit d
  | _ => false
  end.

(** The digits of a number, without a leading zero. *)
Definition load_number (s : string) : option (Z * string) :=
  if leading_zero s then None else load_digits s 0 false.

Definition load_value (s : string) : option (pyval * string) :=
  match s with
  | String c r =>
      if Ascii.eqb c dquote then
        match load_string r with
        | Some (body, rest) => Some (PStr body, rest)
        | None => None
        end
      else if Ascii.eqb c "-" then
        match load_number r with
        | Some (n, rest) => Some (PInt (- n), rest)
        | None => None
        end
      else
        match load_number s with
        | Some (n, rest) => Some (PInt n, rest)
        | None => None
        end
  | EmptyString => None
  end.

(** The members of an object after its opening brace, one per unit of
    fuel. *)
Definition load_key (s : string) : option (string * string) :=
  match s with
  | String c r => if Ascii.eqb c dquote then load_string r else None
  | EmptyString => None
  end.

Fixpoint load_members (fuel : nat) (s : string) (doc : PyDict.dict pyval)
  : loaded :=
  match fuel with
  | O => Malformed
  | S fuel' =>
      match load_key (skip_ws s) with
      | Some (k, r1) =>
          match skip_ws r1 with
          | String ":" r2 =>
              match load_value (skip_ws r2) with
              | Some (v, r3) =>
                  let doc' := PyDict.set doc k v in
                  match skip_ws r3 with
                  | String "," r4 => load_members fuel' r4 doc'
                  | String "}" r4 =>
                      match skip_ws r4 with
                      | EmptyString => Document doc'
                      | _ => Malformed
                      end
                  | _ => Malformed
                  end
              | None => Malformed
              end
          | _ => Malformed
          end
      | None => Malformed
      end
  end.

(** A flat object of strings and integers; any other text is
    answered [Malformed]. *)
Definition load (text : string) : loaded :=
  match skip_ws text with
  | String "{" r =>
      match skip_ws r with
      | String "}" r' =>
          match skip_ws r' with
          | EmptyString => Document []
          | _ => Malformed
          end
      | _ => load_members (String.length r) r []
      end
  | _ => Malformed
  end.

End Json.

(** ** Notions the statements use *)

(** Every key names one input of the whole form. *)
Definition form_keys_unique (self : XMRigGUI) : Prop :=
  NoDup (List.concat (map PyDict.keys (tabs self))).

(** A text or dropdown input that displays [v]. *)
Definition displays (w : widget) (v : string) : Prop :=
  Widget.get w = PStr v.

(** The document holds nothing for the key, or the empty text. *)
Definition empty_or_absent (doc : PyDict.dict pyval) (k : string) : Prop :=
  PyDict.get doc k = None \/ PyDict.get doc k = Some (PStr "").

(** [int] accepts what the document holds for the key. *)
Definition coercible (doc : PyDict.dict pyval) (k : string) : Prop :=
  forall s, PyDict.get doc k = Some (PStr s) ->
            s = "" \/ PyStr.to_int s <> None.

(** Every checkbox of the form finds a value [int] accepts. *)
Definition checkboxes_coercible (self : XMRigGUI) : Prop :=
  forall tab k n,
    In tab (tabs self) -> In (k, IntVar n) tab -> coercible (settings self) k.

(** What [update_ui_with_settings] makes of one input, as far as the
    document's value decides it. *)
Definition applied (doc : PyDict.dict pyval) (old new : string * widget)
  : Prop :=
  fst new = fst old /\
  match snd old with
  | Entry _ =>
      (empty_or_absent doc (fst old) -> snd new = Entry "") /\
      (forall s, PyDict.get doc (fst old) = Some (PStr s) ->
                 snd new = Entry s)
  | IntVar _ =>
      (empty_or_absent doc (fst old) -> snd new = IntVar 0) /\
      (forall n, PyDict.get doc (fst old) = Some (PInt n) ->
                 snd new = IntVar n) /\
      (forall s n, PyDict.get doc (fst old) = Some (PStr s) ->
                   PyStr.to_int s = Some n -> s <> "" -> snd new = IntVar n)
  | Combobox _ _ => empty_or_absent doc (fst old) -> snd new = snd old
  end.

(** What a round trip through the file makes of a widget: a blank text
    comes back empty. *)
Definition reloaded (w : widget) : widget :=
  match w with
  | Entry text => if PyStr.strip text =? "" then Entry "" else Entry text
  | other => other
  end.

(** What [save_settings] stores for a widget, if anything. *)
Definition stored (w : widget) : option pyval :=
  match Widget.get w with
  | PStr s => if PyStr.strip s =? "" then None else Some (PStr s)
  | PInt n => Some (PInt n)
  end.

(** ** Sample forms and systems *)

Definition idle_form : XMRigGUI :=
  GUI [] [("url", Entry "pool:3333"); ("keepalive", IntVar 1)] [] [] [] []
      [] None.

Definition tracking (p : handle) : XMRigGUI := with_process idle_form (Some p).

(** An operating system where every process still runs. *)
Definition all_alive (terminal : bool) : os := OS (fun _ => None) terminal 2.

(** An operating system where every process has exited with code 0. *)
Definition all_exited (terminal : bool) : os :=
  OS (fun _ => Some 0%Z) terminal 2.

(** A form with one text input. *)
Definition url_form : XMRigGUI :=
  GUI [] [("url", Entry "pool:3333")] [] [] [] [] [] None.

(** Two rows that differ at most in their [param] field. *)
Definition same_but_param (r1 r2 : option_row) : Prop :=
  label_text r1 = label_text r2 /\ key r1 = key r2 /\
  widget_type r1 = widget_type r2.


(** A form with a document loaded for it. *)
Definition loaded_form : XMRigGUI :=
  GUI [("coin", PStr ""); ("keepalive", PStr "1"); ("threads", PStr "4")]
      [("coin", Entry "monero"); ("keepalive", IntVar 0);
       ("algo", Combobox ["gr"; "rx/0"] "rx/0")]
      [("threads", Entry ""); ("no-cpu", IntVar 1)]
      [] [] [] [] None.

(** A form with a blank password and an unchecked box. *)
Definition blank_form : XMRigGUI :=
  GUI []
      [("url", Entry "pool:3333"); ("pass", Entry " ");
       ("keepalive", IntVar 0); ("algo", Combobox ["gr"; "rx/0"] "rx/0")]
      [] [] [] [] [] None.

(** A form with inputs in four of its tabs. *)
Definition tabbed_form : XMRigGUI :=
  GUI []
      [("url", Entry "pool:3333"); ("keepalive", IntVar 1)]
      [("threads", Entry " "); ("no-cpu", IntVar 0)]
      [("http-host", Entry "127.0.0.1")]
      []
      [("syslog", IntVar 1)]
      [] None.

(** One input after [update_ui_with_settings] has read back what
    [save_settings] stored for it. *)
Definition reload_item (item : string * widget) : string * widget :=
  (fst item, reloaded (snd item)).

(** A check that the strings of a list are all distinct. *)
Fixpoint distinct (l : list string) : bool :=
  match l with
  | [] => true
  | x :: rest => negb (existsb (String.eqb x) rest) && distinct rest
  end.

(** A text that does not go on with a digit. *)
Definition ends_number (rest : string) : Prop :=
  match rest with
  | EmptyString => True
  | String c _ => PyStr.is_digit c = false
  end.

(** The text of the members, between the braces. *)
Definition members_text (doc : PyDict.dict pyval) : string :=
  String.concat ("," ++ Json.newline) (map Json.dump_item doc).

(** ** The control row and the event loop *)

(** The four buttons [__init__] packs under the tabs, each bound to one
    method. *)
Inductive button : Type :=
| Save
| Load
| Run
| Stop.

(** The program between two clicks: the object, and the text of
    [xmrig_parameters.json] when the file exists. *)
Record session : Type := Session {
  gui : XMRigGUI;
  param_file : option string
}.

Section Buttons.
Variable json_dump : PyDict.dict pyval -> string.
Variable json_load : string -> loaded.

(** One click: the session it leaves, what it showed and called, and the
    exception the method let escape to the event loop, if any.  The
    write of Save is taken to succeed. *)
Definition press (b : button) (sys : os) (s : session)
  : session * list event * option exn :=
  match b with
  | Save =>
      let (self, text) := save_settings json_dump (gui s) in
      (Session self (Some text), [], None)
  | Load =>
      let r := load_settings json_load (param_file s) (gui s) in
      (Session (after r) (param_file s), events r, raised r)
  | Run =>
      let r := run_xmrig sys (gui s) in
      (Session (after r) (param_file s), events r, raised r)
  | Stop =>
      let r := stop_xmrig (gui s) in
      (Session (after r) (param_file s), events r, raised r)
  end.

(** [mainloop] over a list of clicks, each with what the operating
    system shows at that moment: an escaped exception is reported by Tk
    and the loop goes on. *)
Fixpoint presses (clicks : list (button * os)) (s : session)
  : session * list event :=
  match clicks with
  | [] => (s, [])
  | (b, sys) :: rest =>
      let '(s1, shown, _) := press b sys s in
      let (s2, later) := presses rest s1 in
      (s2, shown ++ later)
  end.

End Buttons.

(** ** Notions the further statements use *)

(** A widget as [add_options] has just made it: a checkbox unchecked, a
    dropdown on the first of its choices. *)
Definition fresh (w : widget) : Prop :=
  match w with
  | Entry _ => True
  | IntVar n => n = 0%Z
  | Combobox values text => hd_error values = Some text
  end.

(** The same key, the same kind of input, the same choices. *)
Definition same_shape (old new : string * widget) : Prop :=
  fst new = fst old /\
  match snd old, snd new with
  | Entry _, Entry _ => True
  | IntVar _, IntVar _ => True
  | Combobox values _, Combobox values' _ => values' = values
  | _, _ => False
  end.

(** The same key and, for a dropdown, the same display. *)
Definition dropdown_kept (old new : string * widget) : Prop :=
  fst new = fst old /\
  forall values text, snd old = Combobox values text -> snd new = snd old.

(** What one input adds to the command line. *)
Definition tokens (item : string * widget) : list string :=
  collect_step [] item.

(** What one input adds to the saved document. *)
Definition stored_item (item : string * widget)
  : list (string * pyval) :=
  match stored (snd item) with
  | Some v => [(fst item, v)]
  | None => []
  end.

(** A dropdown row whose list of choices is missing or empty. *)
Definition dropdown_without_choices (row : option_row) : Prop :=
  widget_type row = [XText "dropdown"] \/
  exists more, widget_type row = XText "dropdown" :: XChoices [] :: more.

(** A session with a stale handle and no file yet. *)
Definition stale_session : session := Session (tracking 7) None.

(** A form whose password is two spaces. *)
Definition spaces_form : XMRigGUI :=
  GUI [("old", PStr "x")]
      [("url", Entry "pool:3333"); ("pass", Entry "  ")] [] [] [] [] []
      None.

(** A form with a document [int] rejects for its checkbox. *)
Definition rejected_form : XMRigGUI :=
  GUI [("keepalive", PStr "yes")]
      [("coin", Entry "monero"); ("keepalive", IntVar 0)] [] [] [] [] []
      None.

(** Three rows of a catalog with distinct keys. *)
Definition sample_rows : list option_row :=
  [ Row "Host" "--http-host" "http-host" [XText "127.0.0.1"];
    Row "Syslog" "-S" "syslog" [XText "checkbox"];
    Row "RandomX Mode" "--randomx-mode" "randomx-mode"
      [XText "dropdown"; XChoices ["auto"; "fast"; "light"]] ].

(** * Properties *)

(** ** Dictionaries *)

Section DictFacts.
Context {V : Type}.
Implicit Types (d : PyDict.dict V) (k : string) (v : V).

Lemma get_set_same d k v : PyDict.get (PyDict.set d k v) k = Some v.
Proof.
  induction d as [|[k' v'] d IH]; simpl.
  - now rewrite String.eqb_refl.
  - destruct (k' =? k) eqn:E; simpl; rewrite E; auto.
Qed.

Lemma get_set_other d k k' v :
  k <> k' -> PyDict.get (PyDict.set d k v) k' = PyDict.get d k'.
Proof.
  intros Hne. induction d as [|[k0 v0] d IH]; simpl.
  - destruct (k =? k') eqn:E; auto. apply String.eqb_eq in E. contradiction.
  - destruct (k0 =? k) eqn:E; simpl.
    + apply String.eqb_eq in E. subst k0.
      destruct (k =? k') eqn:E'; auto.
      apply String.eqb_eq in E'. contradiction.
    + now rewrite IH.
Qed.

Lemma get_None_not_In d k :
  PyDict.get d k = None <-> ~ In k (PyDict.keys d).
Proof.
  induction d as [|[k' v'] d IH]; simpl.
  - tauto.
  - destruct (k' =? k) eqn:E.
    + apply String.eqb_eq in E. split; [discriminate | intros H; tauto].
    + apply String.eqb_neq in E. rewrite IH. tauto.
Qed.

(** A new key goes last. *)
Lemma set_fresh d k v :
  ~ In k (PyDict.keys d) -> PyDict.set d k v = d ++ [(k, v)].
Proof.
  induction d as [|[k' v'] d IH]; simpl; intros Hk; auto.
  destruct (k' =? k) eqn:E.
  - apply String.eqb_eq in E. tauto.
  - rewrite IH; tauto.
Qed.

Lemma In_get d k v :
  NoDup (PyDict.keys d) -> In (k, v) d -> PyDict.get d k = Some v.
Proof.
  induction d as [|[k' v'] d IH]; simpl; intros Hnd Hin; [tauto|].
  inversion Hnd as [|? ? Hk' Hnd']; subst.
  destruct Hin as [Heq | Hin].
  - inversion Heq; subst. now rewrite String.eqb_refl.
  - destruct (k' =? k) eqn:E.
    + apply String.eqb_eq in E. subst k'.
      exfalso. apply Hk'. apply (in_map fst) in Hin. exact Hin.
    + auto.
Qed.

Lemma get_In d k v : PyDict.get d k = Some v -> In (k, v) d.
Proof.
  induction d as [|[k' v'] d IH]; simpl; [discriminate|].
  destruct (k' =? k) eqn:E.
  - apply String.eqb_eq in E. intros H; inversion H; subst. now left.
  - auto.
Qed.

Lemma update_fresh d other :
  NoDup (PyDict.keys d ++ PyDict.keys other) ->
  PyDict.update d other = d ++ other.
Proof.
  unfold PyDict.update. revert d.
  induction other as [|[k v] other IH]; simpl; intros d Hnd.
  - now rewrite app_nil_r.
  - assert (Hk : ~ In k (PyDict.keys d)).
    { apply NoDup_remove_2 in Hnd. intros Hin. apply Hnd.
      apply in_or_app. now left. }
    rewrite (set_fresh _ _ _ Hk), IH.
    + now rewrite <- app_assoc.
    + unfold PyDict.keys in *. rewrite map_app, <- app_assoc. exact Hnd.
Qed.

Lemma display_fresh_from d (parts : list (PyDict.dict V)) :
  NoDup (PyDict.keys d ++ List.concat (map PyDict.keys parts)) ->
  fold_left PyDict.update parts d = d ++ List.concat parts.
Proof.
  revert d. induction parts as [|p parts IH]; simpl; intros d Hnd.
  - now rewrite app_nil_r.
  - rewrite app_assoc in Hnd.
    rewrite update_fresh by (eapply NoDup_app_remove_r; exact Hnd).
    rewrite IH.
    + now rewrite <- app_assoc.
    + unfold PyDict.keys in *. now rewrite map_app.
Qed.

(** With keys that are all distinct, a dict display is the parts one
    after the other. *)
Lemma display_fresh (parts : list (PyDict.dict V)) :
  NoDup (List.concat (map PyDict.keys parts)) ->
  PyDict.display parts = List.concat parts.
Proof.
  intros Hnd. unfold PyDict.display. now rewrite display_fresh_from.
Qed.

End DictFacts.

(** ** The merged registry *)

Section MergedFacts.
Context {V : Type}.
Implicit Types (d : PyDict.dict V) (k : string) (v : V).

Lemma In_keys_set d k v x :
  In x (PyDict.keys (PyDict.set d k v)) <-> In x (PyDict.keys d) \/ x = k.
Proof.
  induction d as [|[k' v'] d IH]; simpl.
  - intuition.
  - destruct (k' =? k) eqn:E; simpl.
    + apply String.eqb_eq in E. subst k'. intuition.
    + rewrite IH. intuition.
Qed.

Lemma NoDup_keys_set d k v :
  NoDup (PyDict.keys d) -> NoDup (PyDict.keys (PyDict.set d k v)).
Proof.
  induction d as [|[k' v'] d IH]; simpl; intros Hnd.
  - constructor; [intros [] | constructor].
  - inversion Hnd as [|? ? Hk' Hnd']; subst.
    destruct (k' =? k) eqn:E; simpl.
    + constructor; assumption.
    + constructor; [| auto].
      rewrite In_keys_set. apply String.eqb_neq in E. intuition.
Qed.

Lemma NoDup_keys_update d other :
  NoDup (PyDict.keys d) -> NoDup (PyDict.keys (PyDict.update d other)).
Proof.
  unfold PyDict.update. revert d.
  induction other as [|[k v] other IH]; simpl; intros d Hnd; auto.
  apply IH. now apply NoDup_keys_set.
Qed.

(** A dict display has each key once, whatever its parts. *)
Lemma NoDup_keys_display (parts : list (PyDict.dict V)) :
  NoDup (PyDict.keys (PyDict.display parts)).
Proof.
  unfold PyDict.display.
  assert (H : forall d, NoDup (PyDict.keys d) ->
                        NoDup (PyDict.keys (fold_left PyDict.update parts d))).
  { induction parts as [|p parts IH]; simpl; intros d Hnd; auto.
    apply IH. now apply NoDup_keys_update. }
  apply H. constructor.
Qed.

End MergedFacts.

Lemma distinct_NoDup (l : list string) : distinct l = true -> NoDup l.
Proof.
  induction l as [|x l IH]; simpl; intros H; [constructor |].
  apply andb_prop in H. destruct H as [Hx Hl].
  constructor; [| auto].
  intros Hin. apply negb_true_iff in Hx.
  assert (existsb (String.eqb x) l = true); [| congruence].
  apply existsb_exists. exists x. split; [exact Hin | apply String.eqb_refl].
Qed.

Lemma keys_concat {V : Type} (parts : list (PyDict.dict V)) :
  PyDict.keys (List.concat parts) = List.concat (map PyDict.keys parts).
Proof. unfold PyDict.keys. apply concat_map. Qed.

(** With distinct keys the merged registry is the tabs one after the
    other. *)
Lemma merged_entries_unique (self : XMRigGUI) :
  form_keys_unique self -> merged_entries self = List.concat (tabs self).
Proof. intros Hu. unfold merged_entries. now apply display_fresh. Qed.

(** With distinct keys every input of every tab stands in the merged
    registry, under its own key. *)
Lemma tab_input_in_merged (self : XMRigGUI) (tab : PyDict.dict widget)
  (k : string) (w : widget) :
  form_keys_unique self ->
  In tab (tabs self) -> In (k, w) tab ->
  In (k, w) (PyDict.items (merged_entries self)) /\
  PyDict.get (merged_entries self) k = Some w.
Proof.
  intros Hu Htab Hin. rewrite merged_entries_unique by exact Hu.
  assert (Hall : In (k, w) (List.concat (tabs self))).
  { apply in_concat. exists tab. split; assumption. }
  split; [exact Hall |].
  apply In_get; [| exact Hall]. rewrite keys_concat. exact Hu.
Qed.

Lemma tabbed_form_keys_unique : form_keys_unique tabbed_form.
Proof. apply distinct_NoDup. reflexivity. Qed.

(** ** The process controller *)

(** C6.  With a process handle whose process is still alive, [run_xmrig]
    shows the "already running" warning, calls [Popen] not at all and
    leaves the object, its handle included, as it was. *)
Theorem run_xmrig_already_running (sys : os) (self : XMRigGUI) (p : handle) :
  process self = Some p ->
  poll sys p = None ->
  events (run_xmrig sys self)
    = [showwarning "Warning" "XMRig is already running."] /\
  (forall argv, ~ In (Popen argv) (events (run_xmrig sys self))) /\
  after (run_xmrig sys self) = self /\
  process (after (run_xmrig sys self)) = Some p /\
  raised (run_xmrig sys self) = None.
Proof.
  intros Hp Halive. unfold run_xmrig. rewrite Hp, Halive. simpl.
  repeat split; auto.
  intros argv [H | []]. discriminate H.
Qed.

Lemma run_xmrig_already_running_witness :
  process (tracking 1) = Some 1 /\
  poll (all_alive true) 1 = None /\
  events (run_xmrig (all_alive true) (tracking 1))
    = [showwarning "Warning" "XMRig is already running."] /\
  process (after (run_xmrig (all_alive true) (tracking 1))) = Some 1.
Proof.
  split; [reflexivity | split; [reflexivity |]].
  destruct (run_xmrig_already_running (all_alive true) (tracking 1) 1)
    as (He & _ & _ & Hp & _); [reflexivity | reflexivity |].
  split; [exact He | exact Hp].
Defined.

(** Two calls in a row: the first spawns the terminal, the second, made
    while that child still runs, only warns. *)
Lemma run_xmrig_twice (sys1 sys2 : os) (self : XMRigGUI) :
  process self = None ->
  mate_terminal sys1 = true ->
  poll sys2 (child sys1) = None ->
  let first := run_xmrig sys1 self in
  let second := run_xmrig sys2 (after first) in
  events first = [Popen (terminal_argv (build_command self))] /\
  events second = [showwarning "Warning" "XMRig is already running."] /\
  after second = after first /\
  process (after second) = Some (child sys1).
Proof.
  intros Hnone Hterm Halive. unfold run_xmrig.
  rewrite Hnone, Hterm. simpl. rewrite Halive. simpl. auto.
Qed.

(** C8 as stated fails: with the stale handle of an exited process,
    the failed call shows the notice and the handle is still set. *)
Lemma run_xmrig_no_terminal_keeps_stale_handle :
  mate_terminal (all_exited false) = false /\
  In (showerror "Error" "mate-terminal is not installed or not found.")
     (events (run_xmrig (all_exited false) (tracking 7))) /\
  process (after (run_xmrig (all_exited false) (tracking 7))) = Some 7.
Proof. repeat split. simpl. auto. Qed.

(** C8, amended.  Without the terminal program, and with no live process
    tracked, [run_xmrig] attempts the spawn, shows the "terminal not
    found" error and leaves the object as it was: no handle is set when
    none was set before the call. *)
Theorem run_xmrig_terminal_missing (sys : os) (self : XMRigGUI) :
  mate_terminal sys = false ->
  (forall p, process self = Some p -> poll sys p <> None) ->
  events (run_xmrig sys self)
    = [Popen (terminal_argv (build_command self));
       showerror "Error" "mate-terminal is not installed or not found."] /\
  after (run_xmrig sys self) = self /\
  (process self = None -> process (after (run_xmrig sys self)) = None) /\
  raised (run_xmrig sys self) = None.
Proof.
  intros Hterm Hdead. unfold run_xmrig. rewrite Hterm.
  destruct (process self) as [p|] eqn:Hp.
  - destruct (poll sys p) eqn:Hpoll.
    + simpl. rewrite Hp. repeat split; auto; discriminate.
    + exfalso. apply (Hdead p eq_refl). exact Hpoll.
  - simpl. rewrite Hp. repeat split; auto.
Qed.

Lemma run_xmrig_terminal_missing_witness :
  mate_terminal (all_exited false) = false /\
  events (run_xmrig (all_exited false) idle_form)
    = [Popen ["mate-terminal"; "--"; "bash"; "-c";
              "./xmrig --url=pool:3333 --keepalive; exec bash"];
       showerror "Error" "mate-terminal is not installed or not found."] /\
  process (after (run_xmrig (all_exited false) idle_form)) = None.
Proof.
  split; [reflexivity |].
  destruct (run_xmrig_terminal_missing (all_exited false) idle_form)
    as (He & _ & Hp & _); [reflexivity | discriminate |].
  split; [exact He | apply Hp; reflexivity].
Defined.

(** C9.  Without a process handle, [stop_xmrig] shows the "not running"
    warning, calls [terminate] on nothing and leaves the object, still
    without a handle, as it was. *)
Theorem stop_xmrig_not_running (self : XMRigGUI) :
  process self = None ->
  events (stop_xmrig self)
    = [showwarning "Warning" "XMRig is not running."] /\
  (forall p, ~ In (terminate p) (events (stop_xmrig self))) /\
  after (stop_xmrig self) = self /\
  process (after (stop_xmrig self)) = None /\
  raised (stop_xmrig self) = None.
Proof.
  intros Hnone. unfold stop_xmrig. rewrite Hnone. simpl.
  repeat split; auto.
  intros p [H | []]. discriminate H.
Qed.

Lemma stop_xmrig_not_running_witness :
  process idle_form = None /\
  events (stop_xmrig idle_form)
    = [showwarning "Warning" "XMRig is not running."] /\
  after (stop_xmrig idle_form) = idle_form.
Proof.
  split; [reflexivity |].
  destruct (stop_xmrig_not_running idle_form) as (He & _ & Ha & _);
    [reflexivity |].
  split; [exact He | exact Ha].
Defined.

(** C10.  [stop_xmrig] looks at the handle only; it never polls, which
    is why its model is not given the operating system.  With a handle,
    of a live process or of one that has exited, it calls [terminate] on
    it, clears the handle and reports "XMRig stopped."; the "not
    running" warning is shown exactly when there is no handle. *)
Theorem stop_xmrig_handle_only (self : XMRigGUI) :
  (forall p,
      process self = Some p ->
      events (stop_xmrig self)
        = [terminate p; showinfo "Info" "XMRig stopped."] /\
      after (stop_xmrig self) = with_process self None /\
      process (after (stop_xmrig self)) = None /\
      raised (stop_xmrig self) = None) /\
  (In (showwarning "Warning" "XMRig is not running.")
      (events (stop_xmrig self))
   <-> process self = None).
Proof.
  unfold stop_xmrig. destruct (process self) as [p|] eqn:Hp; simpl.
  - split.
    + intros q Hq. inversion Hq; subst. auto.
    + split.
      * intros [H | [H | []]]; discriminate H.
      * discriminate.
  - split; [discriminate |]. split; auto.
Qed.

(** A handle whose process has exited is terminated and cleared all the
    same. *)
Lemma stop_xmrig_handle_only_witness :
  poll (all_exited true) 7 = Some 0%Z /\
  process (tracking 7) = Some 7 /\
  events (stop_xmrig (tracking 7))
    = [terminate 7; showinfo "Info" "XMRig stopped."] /\
  process (after (stop_xmrig (tracking 7))) = None.
Proof.
  split; [reflexivity | split; [reflexivity |]].
  destruct (stop_xmrig_handle_only (tracking 7)) as [Hstop _].
  destruct (Hstop 7 eq_refl) as (He & _ & Hp & _).
  split; [exact He | exact Hp].
Defined.

(** ** The command line *)

Lemma collect_app (l1 l2 : list (string * widget)) (command : list string) :
  collect (l1 ++ l2) command = collect l2 (collect l1 command).
Proof. unfold collect. apply fold_left_app. Qed.

Lemma collect_cons (item : string * widget) (l : list (string * widget))
  (command : list string) :
  collect (item :: l) command = collect l (collect_step command item).
Proof. reflexivity. Qed.

Lemma collect_step_keeps (command : list string) (item : string * widget)
  (token : string) :
  In token command -> In token (collect_step command item).
Proof.
  intros Hin. unfold collect_step. destruct item as [k w].
  repeat match goal with
         | |- context [if ?b then _ else _] => destruct b
         end; auto; apply in_or_app; now left.
Qed.

(** The loop only appends: what is in the command stays there. *)
Lemma collect_keeps (l : list (string * widget)) (command : list string)
  (token : string) :
  In token command -> In token (collect l command).
Proof.
  revert command. induction l as [|item l IH]; simpl; intros command Hin.
  - exact Hin.
  - apply IH. now apply collect_step_keeps.
Qed.

Lemma collect_step_checkbox (command : list string) (k : string) (n : Z) :
  collect_step command (k, IntVar n)
  = if (n =? 0)%Z then command else command ++ [("--" ++ k)%string].
Proof.
  unfold collect_step. simpl. now destruct (n =? 0)%Z.
Qed.

Lemma collect_step_text (command : list string) (k : string) (w : widget)
  (v : string) :
  displays w v ->
  collect_step command (k, w)
  = if v =? "" then command
    else command ++ [("--" ++ k ++ "=" ++ v)%string].
Proof.
  unfold displays, collect_step. intros Hget.
  destruct w as [t | n | c t]; simpl in *; try discriminate;
    inversion Hget; subst; now destruct (v =? "").
Qed.

(** Every input of the merged registry has its place in the order the
    loop follows. *)
Lemma merged_entries_split (self : XMRigGUI) (k : string) (w : widget) :
  PyDict.get (merged_entries self) k = Some w ->
  exists before rest,
    PyDict.items (merged_entries self) = before ++ (k, w) :: rest.
Proof.
  intros Hget. apply get_In in Hget. apply in_split in Hget.
  destruct Hget as (before & rest & Heq). now exists before, rest.
Qed.

(** C3.  With distinct keys, for a checkbox of any tab the loop of
    [run_xmrig] appends the token [--key] to what the inputs before it
    gave when the box is checked; when it is unchecked the command is
    what the registry without that checkbox gives. *)
Theorem run_xmrig_checkbox_token (self : XMRigGUI)
  (tab : PyDict.dict widget) (k : string) (n : Z) :
  form_keys_unique self ->
  In tab (tabs self) ->
  In (k, IntVar n) tab ->
  exists before rest,
    PyDict.items (merged_entries self) = before ++ (k, IntVar n) :: rest /\
    (n <> 0%Z ->
     build_command self
       = collect rest (collect before ["./xmrig"] ++ [("--" ++ k)%string]) /\
     In ("--" ++ k)%string (build_command self)) /\
    (n = 0%Z ->
     build_command self = collect (before ++ rest) ["./xmrig"]).
Proof.
  intros Hu Htab Hin.
  destruct (tab_input_in_merged self tab k (IntVar n) Hu Htab Hin)
    as [Hmerged _].
  apply in_split in Hmerged. destruct Hmerged as (before & rest & Hitems).
  exists before, rest. split; [exact Hitems |].
  unfold build_command. rewrite Hitems.
  rewrite !collect_app, collect_cons, collect_step_checkbox.
  split.
  - intros Hn. apply Z.eqb_neq in Hn. rewrite Hn. split; [reflexivity |].
    apply collect_keeps, in_or_app. right. now left.
  - intros Hn. subst n. reflexivity.
Qed.

Lemma run_xmrig_checkbox_token_witness :
  form_keys_unique tabbed_form /\
  In (logging_entries tabbed_form) (tabs tabbed_form) /\
  In ("syslog", IntVar 1) (logging_entries tabbed_form) /\
  In "--syslog" (build_command tabbed_form).
Proof.
  assert (Htab : In (logging_entries tabbed_form) (tabs tabbed_form)).
  { do 4 right. left. reflexivity. }
  assert (Hin : In ("syslog", IntVar 1) (logging_entries tabbed_form)).
  { left. reflexivity. }
  split; [exact tabbed_form_keys_unique |].
  split; [exact Htab |]. split; [exact Hin |].
  destruct (run_xmrig_checkbox_token tabbed_form
              (logging_entries tabbed_form) "syslog" 1
              tabbed_form_keys_unique Htab Hin)
    as (before & rest & _ & Hset & _).
  destruct Hset as [_ Hcmd]; [discriminate | exact Hcmd].
Defined.

(** C4 as stated fails: the token of a text input starts with two
    dashes, and the bare [key=value] is no token of the command. *)
Lemma run_xmrig_token_has_dashes :
  displays (Entry "pool:3333") "pool:3333" /\
  PyDict.get (merged_entries url_form) "url" = Some (Entry "pool:3333") /\
  build_command url_form = ["./xmrig"; "--url=pool:3333"] /\
  ~ In "url=pool:3333" (build_command url_form).
Proof.
  repeat split. simpl. intros [H | [H | []]]; discriminate H.
Qed.

(** C4, amended.  With distinct keys, for a text or dropdown input of
    any tab that displays a non-empty value, the loop of [run_xmrig]
    appends the token [--key=value], made of the key under which the
    input is registered; when the value is empty the command is what
    the registry without that input gives. *)
Theorem run_xmrig_text_token (self : XMRigGUI) (tab : PyDict.dict widget)
  (k : string) (w : widget) (v : string) :
  form_keys_unique self ->
  In tab (tabs self) ->
  In (k, w) tab ->
  displays w v ->
  exists before rest,
    PyDict.items (merged_entries self) = before ++ (k, w) :: rest /\
    (v <> "" ->
     build_command self
       = collect rest
           (collect before ["./xmrig"]
            ++ [("--" ++ k ++ "=" ++ v)%string]) /\
     In ("--" ++ k ++ "=" ++ v)%string (build_command self)) /\
    (v = "" ->
     build_command self = collect (before ++ rest) ["./xmrig"]).
Proof.
  intros Hu Htab Hin Hw.
  destruct (tab_input_in_merged self tab k w Hu Htab Hin) as [Hmerged _].
  apply in_split in Hmerged. destruct Hmerged as (before & rest & Hitems).
  exists before, rest. split; [exact Hitems |].
  unfold build_command. rewrite Hitems.
  rewrite !collect_app, collect_cons, (collect_step_text _ _ _ _ Hw).
  split.
  - intros Hv. apply String.eqb_neq in Hv. rewrite Hv. split; [reflexivity |].
    apply collect_keeps, in_or_app. right. now left.
  - intros Hv. subst v. reflexivity.
Qed.

Lemma run_xmrig_text_token_witness :
  form_keys_unique tabbed_form /\
  In (api_entries tabbed_form) (tabs tabbed_form) /\
  In ("http-host", Entry "127.0.0.1") (api_entries tabbed_form) /\
  displays (Entry "127.0.0.1") "127.0.0.1" /\
  In "--http-host=127.0.0.1" (build_command tabbed_form).
Proof.
  assert (Htab : In (api_entries tabbed_form) (tabs tabbed_form)).
  { do 2 right. left. reflexivity. }
  assert (Hin : In ("http-host", Entry "127.0.0.1")
                   (api_entries tabbed_form)).
  { left. reflexivity. }
  split; [exact tabbed_form_keys_unique |].
  split; [exact Htab |]. split; [exact Hin |]. split; [reflexivity |].
  destruct (run_xmrig_text_token tabbed_form (api_entries tabbed_form)
              "http-host" (Entry "127.0.0.1") "127.0.0.1"
              tabbed_form_keys_unique Htab Hin eq_refl)
    as (before & rest & _ & Hset & _).
  destruct Hset as [_ Hcmd]; [discriminate | exact Hcmd].
Defined.

(** The [param] column of the catalog plays no part: rows that differ
    only there give the same registry, hence the same command. *)
Lemma add_options_ignores_param (rows1 rows2 : list option_row) :
  Forall2 same_but_param rows1 rows2 ->
  forall entries, add_options entries rows1 = add_options entries rows2.
Proof.
  induction 1 as [|r1 r2 rows1 rows2 (_ & Hkey & Hwt) _ IH]; intros entries.
  - reflexivity.
  - simpl. unfold new_widget. rewrite Hkey, Hwt.
    destruct (widget_type r2) as [|[word | choices] more]; auto.
    destruct (word =? "checkbox"); auto.
    destruct (word =? "dropdown"); auto.
    destruct more as [|[? | [|first others]] ?]; auto.
Qed.

(** The command of the form as it opens: the URL goes under [--url],
    the key, and not under [-o], the catalog's flag. *)
Example initial_command :
  option_map build_command init
  = Some ["./xmrig";
          "--url=stratum+tcp://randomxmonero.auto.nicehash.com:9200";
          "--user=38bj4uu8uDsnC5NjoeGb8TMviBCEtMiaet"; "--algo=gr";
          "--asm=auto"; "--argon2-impl=x86_64"; "--randomx-mode=auto";
          "--http-host=127.0.0.1"].
Proof. vm_compute. reflexivity. Qed.

(** ** Strings *)

Lemma append_empty_r (s : string) : (s ++ "")%string = s.
Proof. induction s as [|c s IH]; simpl; [reflexivity | now rewrite IH]. Qed.

Lemma lstrip_by_all (p : ascii -> bool) (s : string) :
  Forall (fun c => p c = true) (list_ascii_of_string s) ->
  PyStr.lstrip_by p s = "".
Proof.
  induction s as [|c s IH]; simpl; intros Hall; [reflexivity |].
  inversion Hall as [|? ? Hc Hs]; subst. rewrite Hc. auto.
Qed.

Lemma rstrip_by_empty (p : ascii -> bool) (s : string) :
  PyStr.rstrip_by p s = "" ->
  Forall (fun c => p c = true) (list_ascii_of_string s).
Proof.
  induction s as [|c s IH]; simpl; intros H; [constructor |].
  destruct (PyStr.rstrip_by p s) eqn:E; [| discriminate].
  destruct (p c) eqn:Hc; [| discriminate].
  constructor; auto.
Qed.

(** What [lstrip] leaves is empty or starts with a character it keeps. *)
Lemma lstrip_by_head (p : ascii -> bool) (s : string) :
  match PyStr.lstrip_by p s with
  | EmptyString => Forall (fun c => p c = true) (list_ascii_of_string s)
  | String c _ => p c = false
  end.
Proof.
  induction s as [|c s IH]; simpl; [constructor |].
  destruct (p c) eqn:Hc; simpl; [| exact Hc].
  destruct (PyStr.lstrip_by p s); [constructor; auto | exact IH].
Qed.

(** The trimmed value is empty exactly when the value is empty or made
    of blanks only. *)
Lemma strip_empty_iff (s : string) :
  PyStr.strip s = "" <->
  Forall (fun c => PyStr.isspace c = true) (list_ascii_of_string s).
Proof.
  unfold PyStr.strip. split.
  - intros H. pose proof (lstrip_by_head PyStr.isspace s) as Hhead.
    destruct (PyStr.lstrip_by PyStr.isspace s) as [|c r]; [exact Hhead |].
    apply rstrip_by_empty in H. inversion H as [|? ? Hc _]; subst.
    congruence.
  - intros Hall. now rewrite lstrip_by_all.
Qed.

(** ** The settings store *)

Lemma save_step_stored (doc : PyDict.dict pyval) (k : string) (w : widget) :
  save_step doc (k, w)
  = match stored w with
    | Some v => PyDict.set doc k v
    | None => doc
    end.
Proof.
  unfold save_step, stored.
  destruct w as [t | n | c t]; simpl; try reflexivity;
    now destruct (PyStr.strip t =? "").
Qed.

Lemma get_fold_save_step (l : list (string * widget))
  (doc : PyDict.dict pyval) (k : string) :
  NoDup (PyDict.keys l) ->
  PyDict.get (fold_left save_step l doc) k
  = match PyDict.get l k with
    | Some w => match stored w with
                | Some v => Some v
                | None => PyDict.get doc k
                end
    | None => PyDict.get doc k
    end.
Proof.
  revert doc. induction l as [|[k1 w1] l IH]; intros doc Hnd.
  - reflexivity.
  - simpl in Hnd. inversion Hnd as [|? ? Hk1 Hnd']; subst.
    cbn [fold_left]. rewrite (IH _ Hnd'), save_step_stored.
    cbn [PyDict.get].
    destruct (k1 =? k) eqn:E.
    + apply String.eqb_eq in E. subst k1.
      apply get_None_not_In in Hk1. rewrite Hk1.
      destruct (stored w1); [apply get_set_same | reflexivity].
    + apply String.eqb_neq in E.
      destruct (stored w1); [rewrite (get_set_other _ _ _ _ E) |];
        reflexivity.
Qed.

(** What the captured document holds for a key: what the input of that
    key stores, nothing without such an input. *)
Lemma capture_get (self : XMRigGUI) (k : string) :
  PyDict.get (capture self) k
  = match PyDict.get (merged_entries self) k with
    | Some w => stored w
    | None => None
    end.
Proof.
  unfold capture, PyDict.items.
  rewrite get_fold_save_step by apply NoDup_keys_display.
  destruct (PyDict.get (merged_entries self) k) as [w|]; [| reflexivity].
  now destruct (stored w).
Qed.

(** With distinct keys the captured document holds, for each input of
    each tab, what that input stores. *)
Lemma capture_get_tab (self : XMRigGUI) (tab : PyDict.dict widget)
  (k : string) (w : widget) :
  form_keys_unique self ->
  In tab (tabs self) -> In (k, w) tab ->
  PyDict.get (capture self) k = stored w.
Proof.
  intros Hu Htab Hin. rewrite capture_get, merged_entries_unique by exact Hu.
  rewrite (In_get (List.concat (tabs self)) k w); [reflexivity | |].
  - rewrite keys_concat. exact Hu.
  - apply in_concat. exists tab. split; assumption.
Qed.

Section StoreFacts.
Variable json_dump : PyDict.dict pyval -> string.
Variable json_load : string -> loaded.

(** C2.  With distinct keys, the document [save_settings] collects has
    no key for a text or dropdown input, of any tab, whose trimmed value
    is empty, and has the key of every checkbox of every tab with the
    integer the box holds, 0 when unchecked; that document is what it
    writes to the file. *)
Theorem save_settings_document (self : XMRigGUI) (tab : PyDict.dict widget)
  (k : string) (w : widget) :
  form_keys_unique self ->
  In tab (tabs self) ->
  In (k, w) tab ->
  (forall v, displays w v -> PyStr.strip v = "" ->
             PyDict.get (settings (fst (save_settings json_dump self))) k
             = None) /\
  (forall n, w = IntVar n ->
             PyDict.get (settings (fst (save_settings json_dump self))) k
             = Some (PInt n)) /\
  snd (save_settings json_dump self)
  = json_dump (settings (fst (save_settings json_dump self))).
Proof.
  intros Hu Htab Hin. cbn [save_settings fst snd settings with_settings].
  rewrite (capture_get_tab self tab k w Hu Htab Hin).
  unfold stored, displays.
  repeat split.
  - intros v Hv Hblank. rewrite Hv, Hblank. reflexivity.
  - intros n ->. reflexivity.
Qed.

(** C7.  Without the settings file, [load_settings] shows the "no
    parameter file" error, lets no exception escape and leaves the
    object, its document and every input, as it was. *)
Theorem load_settings_missing_file (self : XMRigGUI) :
  events (load_settings json_load None self)
    = [showerror "Error" "No parameter file found."] /\
  raised (load_settings json_load None self) = None /\
  after (load_settings json_load None self) = self /\
  settings (after (load_settings json_load None self)) = settings self /\
  tabs (after (load_settings json_load None self)) = tabs self.
Proof. repeat split. Qed.

End StoreFacts.

Lemma save_settings_document_witness :
  form_keys_unique tabbed_form /\
  In (cpu_entries tabbed_form) (tabs tabbed_form) /\
  In ("threads", Entry " ") (cpu_entries tabbed_form) /\
  PyDict.get (settings (fst (save_settings Json.dump tabbed_form))) "threads"
  = None /\
  In ("no-cpu", IntVar 0) (cpu_entries tabbed_form) /\
  PyDict.get (settings (fst (save_settings Json.dump tabbed_form))) "no-cpu"
  = Some (PInt 0) /\
  In (logging_entries tabbed_form) (tabs tabbed_form) /\
  In ("syslog", IntVar 1) (logging_entries tabbed_form) /\
  PyDict.get (settings (fst (save_settings Json.dump tabbed_form))) "syslog"
  = Some (PInt 1).
Proof.
  assert (Hcpu : In (cpu_entries tabbed_form) (tabs tabbed_form)).
  { right. left. reflexivity. }
  assert (Hlog : In (logging_entries tabbed_form) (tabs tabbed_form)).
  { do 4 right. left. reflexivity. }
  assert (Hthreads : In ("threads", Entry " ") (cpu_entries tabbed_form)).
  { left. reflexivity. }
  assert (Hnocpu : In ("no-cpu", IntVar 0) (cpu_entries tabbed_form)).
  { right. left. reflexivity. }
  assert (Hsyslog : In ("syslog", IntVar 1) (logging_entries tabbed_form)).
  { left. reflexivity. }
  split; [exact tabbed_form_keys_unique |].
  split; [exact Hcpu |]. split; [exact Hthreads |].
  destruct (save_settings_document Json.dump tabbed_form
              (cpu_entries tabbed_form) "threads" (Entry " ")
              tabbed_form_keys_unique Hcpu Hthreads) as (Hblank & _ & _).
  split; [apply (Hblank " "); reflexivity |].
  split; [exact Hnocpu |].
  destruct (save_settings_document Json.dump tabbed_form
              (cpu_entries tabbed_form) "no-cpu" (IntVar 0)
              tabbed_form_keys_unique Hcpu Hnocpu) as (_ & Hbox & _).
  split; [apply (Hbox 0%Z); reflexivity |].
  split; [exact Hlog |]. split; [exact Hsyslog |].
  destruct (save_settings_document Json.dump tabbed_form
              (logging_entries tabbed_form) "syslog" (IntVar 1)
              tabbed_form_keys_unique Hlog Hsyslog) as (_ & Hbox1 & _).
  apply (Hbox1 1%Z). reflexivity.
Defined.

(** ** Applying a document to the form *)

Lemma update_widget_entry (doc : PyDict.dict pyval) (k t : string) :
  update_widget doc k (Entry t)
  = inr (Entry (py_str (PyDict.get_default doc k (PStr "")))).
Proof. unfold update_widget. simpl. now rewrite append_empty_r. Qed.

(** A combobox is an instance of [tk.Entry]: the first branch takes it,
    and the entry commands leave a read-only box as it is. *)
Lemma update_widget_combobox (doc : PyDict.dict pyval) (k : string)
  (values : list string) (t : string) :
  update_widget doc k (Combobox values t) = inr (Combobox values t).
Proof. reflexivity. Qed.

Lemma update_widget_intvar (doc : PyDict.dict pyval) (k : string) (n : Z) :
  update_widget doc k (IntVar n)
  = let value := PyDict.get_default doc k (PStr "") in
    if truthy value then
      match py_int value with
      | inr m => inr (IntVar m)
      | inl e => inl e
      end
    else inr (IntVar 0).
Proof.
  unfold update_widget. simpl.
  destruct (truthy _); [| reflexivity].
  now destruct (py_int _).
Qed.

Lemma update_widget_applied (doc : PyDict.dict pyval) (k : string)
  (w : widget) :
  (forall n, w = IntVar n -> coercible doc k) ->
  exists w', update_widget doc k w = inr w' /\ applied doc (k, w) (k, w').
Proof.
  intros Hco. destruct w as [t | n | values t].
  - rewrite update_widget_entry. eexists. split; [reflexivity |].
    unfold applied, empty_or_absent, PyDict.get_default. simpl.
    split; [reflexivity |]. split.
    + intros [H | H]; rewrite H; reflexivity.
    + intros s H. rewrite H. reflexivity.
  - rewrite update_widget_intvar.
    specialize (Hco n eq_refl). unfold coercible in Hco.
    unfold applied, empty_or_absent, PyDict.get_default. simpl.
    destruct (PyDict.get doc k) as [[s | m] |] eqn:Hget; simpl.
    + destruct (s =? "") eqn:Hs; simpl.
      * apply String.eqb_eq in Hs. subst s.
        eexists. split; [reflexivity |]. split; [reflexivity |].
        repeat split; auto; try discriminate.
        intros s n' H _ Hne. inversion H; subst. now elim Hne.
      * apply String.eqb_neq in Hs.
        destruct (Hco s eq_refl) as [He | Hint]; [contradiction |].
        destruct (PyStr.to_int s) as [m|] eqn:Hm; [| now elim Hint].
        eexists. split; [reflexivity |]. split; [reflexivity |].
        repeat split.
        -- intros [H | H]; [discriminate | inversion H; subst; now elim Hs].
        -- discriminate.
        -- intros s' n' H Hn' _. inversion H; subst. congruence.
    + destruct (m =? 0)%Z eqn:Hm0; simpl;
        (eexists; split; [reflexivity |]; split; [reflexivity |]);
        repeat split; try (intros [H | H]; discriminate H);
        try discriminate.
      * intros n' H. inversion H; subst. apply Z.eqb_eq in Hm0. now subst.
      * intros n' H. now inversion H.
    + eexists. split; [reflexivity |]. split; [reflexivity |].
      repeat split; auto; discriminate.
  - rewrite update_widget_combobox. eexists. split; [reflexivity |].
    unfold applied. simpl. auto.
Qed.

Lemma update_entries_applied (doc : PyDict.dict pyval)
  (tab : PyDict.dict widget) :
  (forall k n, In (k, IntVar n) tab -> coercible doc k) ->
  exists tab',
    update_entries doc tab = (tab', None) /\ Forall2 (applied doc) tab tab'.
Proof.
  induction tab as [|[k w] tab IH]; intros Hco.
  - exists []. split; [reflexivity | constructor].
  - destruct (update_widget_applied doc k w) as (w' & Hw & Happ).
    { intros n ->. apply (Hco k n). now left. }
    destruct IH as (tab' & Htab & Hall).
    { intros k' n' Hin. apply (Hco k' n'). now right. }
    exists ((k, w') :: tab'). cbn [update_entries]. rewrite Hw, Htab.
    split; [reflexivity | now constructor].
Qed.

Lemma update_tabs_applied (doc : PyDict.dict pyval)
  (ts : list (PyDict.dict widget)) :
  (forall tab k n, In tab ts -> In (k, IntVar n) tab -> coercible doc k) ->
  exists ts',
    update_tabs doc ts = (ts', None) /\
    Forall2 (Forall2 (applied doc)) ts ts'.
Proof.
  induction ts as [|tab ts IH]; intros Hco.
  - exists []. split; [reflexivity | constructor].
  - destruct (update_entries_applied doc tab) as (tab' & Htab & Hall).
    { intros k n. apply Hco. now left. }
    destruct IH as (ts' & Hts & Halls).
    { intros tab0 k n Hin. apply Hco. now right. }
    exists (tab' :: ts'). cbn [update_tabs]. rewrite Htab, Hts.
    split; [reflexivity | now constructor].
Qed.

Lemma tabs_with_tabs (self : XMRigGUI) (ts : list (PyDict.dict widget)) :
  List.length ts = 6 -> tabs (with_tabs self ts) = ts.
Proof.
  intros Hlen.
  do 6 (destruct ts as [|? ts]; [discriminate Hlen |]).
  destruct ts; [reflexivity | discriminate Hlen].
Qed.



Lemma loaded_form_coercible : checkboxes_coercible loaded_form.
Proof.
  intros tab k n Htab Hin s Hs. simpl in Htab.
  destruct Htab as [<- | [<- | Htab]].
  - simpl in Hin. destruct Hin as [H | [H | [H | []]]]; inversion H; subst.
    simpl in Hs. inversion Hs; subst. right. discriminate.
  - simpl in Hin. destruct Hin as [H | [H | []]]; inversion H; subst.
    simpl in Hs. discriminate Hs.
  - destruct Htab as [<- | [<- | [<- | [<- | []]]]]; destruct Hin.
Qed.


(** A value [int] rejects stops the update where it stands: the inputs
    before the checkbox have changed, those after it have not. *)
Example update_ui_with_settings_raises :
  update_ui_with_settings
    (GUI [("keepalive", PStr "yes")]
         [("coin", Entry "monero"); ("keepalive", IntVar 0);
          ("pass", Entry "x")] [("threads", Entry "4")] [] [] [] [] None)
  = Outcome
      (GUI [("keepalive", PStr "yes")]
           [("coin", Entry ""); ("keepalive", IntVar 0); ("pass", Entry "x")]
           [("threads", Entry "4")] [] [] [] [] None)
      [] (Some ValueError).
Proof. reflexivity. Qed.

(** ** The round trip through the file *)

Lemma keys_reload (tab : PyDict.dict widget) :
  PyDict.keys (map reload_item tab) = PyDict.keys tab.
Proof.
  unfold PyDict.keys. rewrite map_map. apply map_ext. reflexivity.
Qed.


Lemma update_widget_reload (doc : PyDict.dict pyval) (k : string)
  (w : widget) :
  PyDict.get doc k = stored w ->
  update_widget doc k w = inr (reloaded w).
Proof.
  intros Hget. destruct w as [t | n | values t].
  - rewrite update_widget_entry. unfold PyDict.get_default. rewrite Hget.
    unfold stored, reloaded. simpl. now destruct (PyStr.strip t =? "").
  - rewrite update_widget_intvar. unfold PyDict.get_default. rewrite Hget.
    simpl. destruct (n =? 0)%Z eqn:Hn; simpl; [| reflexivity].
    apply Z.eqb_eq in Hn. now subst.
  - apply update_widget_combobox.
Qed.

Lemma update_entries_reload (doc : PyDict.dict pyval)
  (tab : PyDict.dict widget) :
  (forall k w, In (k, w) tab -> PyDict.get doc k = stored w) ->
  update_entries doc tab = (map reload_item tab, None).
Proof.
  induction tab as [|[k w] tab IH]; intros Hdoc; [reflexivity |].
  cbn [update_entries map].
  rewrite update_widget_reload by (apply Hdoc; now left).
  rewrite IH by (intros k' w' Hin; apply Hdoc; now right).
  reflexivity.
Qed.

Lemma update_tabs_reload (doc : PyDict.dict pyval)
  (ts : list (PyDict.dict widget)) :
  (forall tab k w, In tab ts -> In (k, w) tab ->
                   PyDict.get doc k = stored w) ->
  update_tabs doc ts = (map (map reload_item) ts, None).
Proof.
  induction ts as [|tab ts IH]; intros Hdoc; [reflexivity |].
  cbn [update_tabs map].
  rewrite update_entries_reload by (intros k w; apply Hdoc; now left).
  rewrite IH by (intros tab' k w Hin; apply Hdoc; now right).
  reflexivity.
Qed.

Section RoundTrip.
Variable json_dump : PyDict.dict pyval -> string.
Variable json_load : string -> loaded.

(** What saving and loading back leaves, when the keys are distinct and
    [json.load] reads back the document [json.dump] wrote: the captured
    document, and every input as it was but for blank texts, emptied. *)
Lemma save_then_load_outcome (self : XMRigGUI) :
  form_keys_unique self ->
  json_load (json_dump (capture self)) = Document (capture self) ->
  save_then_load json_dump json_load self
  = Outcome
      (with_tabs (with_settings self (capture self))
         (map (map reload_item) (tabs self)))
      [] None.
Proof.
  intros Hu Hcodec.
  unfold save_then_load, save_settings, load_settings. simpl.
  rewrite Hcodec. unfold update_ui_with_settings.
  change (settings (with_settings self (capture self))) with (capture self).
  change (tabs (with_settings self (capture self))) with (tabs self).
  rewrite update_tabs_reload; [reflexivity |].
  intros tab k w Htab Hin. now apply (capture_get_tab self tab).
Qed.


End RoundTrip.

(** The keys of the form are distinct as the catalog stands. *)
Example init_keys_unique :
  exists self, init = Some self /\ form_keys_unique self.
Proof.
  eexists. split; [reflexivity |].
  apply distinct_NoDup. vm_compute. reflexivity.
Qed.

Lemma blank_form_keys_unique : form_keys_unique blank_form.
Proof. apply distinct_NoDup. reflexivity. Qed.



(** The form as it opens, saved and loaded back through the JSON text:
    nothing is raised and every input is as before. *)
Example init_save_then_load :
  option_map (save_then_load Json.dump Json.load) init
  = option_map (fun self => Outcome (with_settings self (capture self)) [] None)
      init.
Proof. vm_compute. reflexivity. Qed.

(** ** The JSON codec reads back what it writes *)

Lemma append_assoc (a b c : string) :
  ((a ++ b) ++ c)%string = (a ++ b ++ c)%string.
Proof. induction a as [|x a IH]; simpl; [reflexivity | now rewrite IH]. Qed.

Lemma load_string_escape (c : ascii) (body : string) :
  Json.load_string (Json.escape c ++ body)
  = match Json.load_string body with
    | Some (b, rest) => Some (String c b, rest)
    | None => None
    end.
Proof. destruct c as [[] [] [] [] [] [] [] []]; reflexivity. Qed.

Lemma load_string_escape_all (s rest : string) :
  Json.load_string (Json.escape_all s ++ String Json.dquote rest)
  = Some (s, rest).
Proof.
  induction s as [|c s IH].
  - reflexivity.
  - cbn [Json.escape_all]. now rewrite append_assoc, load_string_escape, IH.
Qed.

Lemma dump_string_cons (s rest : string) :
  (Json.dump_string s ++ rest)%string
  = String Json.dquote (Json.escape_all s ++ String Json.dquote rest).
Proof.
  unfold Json.dump_string, Json.quote. simpl. now rewrite append_assoc.
Qed.

Lemma load_digits_done (rest : string) (acc : Z) :
  ends_number rest -> Json.load_digits rest acc true = Some (acc, rest).
Proof.
  destruct rest as [|c r]; simpl; intros H; [reflexivity | now rewrite H].
Qed.

Lemma load_digits_digit (c : ascii) (r : string) (acc : Z) (seen : bool) :
  PyStr.is_digit c = true ->
  Json.load_digits (String c r) acc seen
  = Json.load_digits r (10 * acc + PyStr.digit_value c) true.
Proof. intros H. cbn [Json.load_digits]. now rewrite H. Qed.

Ltac digit_value :=
  match goal with
  | |- context [PyStr.digit_value ?c] =>
      let v := eval vm_compute in (PyStr.digit_value c) in
      change (PyStr.digit_value c) with v
  end.

Lemma load_digits_acc (d : Decimal.uint) (rest : string) (acc : positive) :
  Json.load_digits (NilEmpty.string_of_uint d ++ rest) (Z.pos acc) true
  = Json.load_digits rest (Z.pos (Pos.of_uint_acc d acc)) true.
Proof.
  revert acc.
  induction d; intros acc;
    cbn [NilEmpty.string_of_uint String.append Pos.of_uint_acc];
    try reflexivity;
    rewrite load_digits_digit by reflexivity;
    rewrite <- IHd; f_equal; digit_value; lia.
Qed.

Lemma load_digits_uint (d : Decimal.uint) (rest : string) (seen : bool) :
  ends_number rest ->
  seen = true \/ d <> Decimal.Nil ->
  Json.load_digits (NilEmpty.string_of_uint d ++ rest) 0 seen
  = Some (Z.of_N (Pos.of_uint d), rest).
Proof.
  intros Hrest. revert seen.
  induction d; intros seen Hseen;
    cbn [NilEmpty.string_of_uint String.append Pos.of_uint];
    try (rewrite load_digits_digit by reflexivity; digit_value;
         cbn [Z.mul Z.add]; rewrite load_digits_acc;
         now apply load_digits_done).
  - destruct Hseen as [-> | Hd]; [| now elim Hd].
    now apply load_digits_done.
  - rewrite load_digits_digit by reflexivity. digit_value. cbn [Z.mul Z.add].
    apply IHd. now left.
Qed.

Lemma to_uint_head (p : positive) (d : Decimal.uint) :
  Pos.to_uint p <> Decimal.D0 d.
Proof.
  intros Hp.
  pose proof (Unsigned.to_of (Pos.to_uint p)) as Hnorm.
  rewrite Unsigned.of_to in Hnorm. cbn [N.to_uint] in Hnorm.
  rewrite Hp in Hnorm. unfold Decimal.unorm in Hnorm.
  cbn [Decimal.nzhead] in Hnorm.
  destruct (Decimal.nzhead d) eqn:Hd;
    try (symmetry in Hnorm; rewrite <- Hd in Hnorm;
         now apply DecimalFacts.nzhead_nonzero in Hnorm).
  inversion Hnorm; subst d.
  now apply (Unsigned.to_uint_nonzero p).
Qed.

(** The decimal text of a positive number has no leading zero. *)
Lemma leading_zero_to_uint (p : positive) (rest : string) :
  Json.leading_zero (NilEmpty.string_of_uint (Pos.to_uint p) ++ rest) = false.
Proof.
  pose proof (to_uint_head p) as Hhead.
  destruct (Pos.to_uint p) as [|d|d|d|d|d|d|d|d|d|d] eqn:Hd;
    try reflexivity.
  - now elim (Unsigned.to_uint_nonnil p).
  - now elim (Hhead d).
Qed.

Lemma load_number_to_uint (p : positive) (rest : string) :
  ends_number rest ->
  Json.load_number (NilEmpty.string_of_uint (Pos.to_uint p) ++ rest)
  = Some (Z.pos p, rest).
Proof.
  intros Hrest. unfold Json.load_number.
  rewrite leading_zero_to_uint, load_digits_uint, Unsigned.of_to; auto.
  right. apply Unsigned.to_uint_nonnil.
Qed.

Lemma load_number_zero (rest : string) :
  ends_number rest -> Json.load_number (String "0" rest) = Some (0%Z, rest).
Proof.
  intros Hrest. unfold Json.load_number.
  assert (Hz : Json.leading_zero (String "0" rest) = false).
  { destruct rest as [|c r]; [reflexivity | exact Hrest]. }
  rewrite Hz, load_digits_digit by reflexivity.
  digit_value. cbn [Z.mul Z.add]. now apply load_digits_done.
Qed.

(** A number that does not start with a sign is read by the digits. *)
Lemma load_value_uint (d : Decimal.uint) (rest : string) :
  d <> Decimal.Nil ->
  Json.load_value (NilEmpty.string_of_uint d ++ rest)
  = match Json.load_number (NilEmpty.string_of_uint d ++ rest) with
    | Some (n, r) => Some (PInt n, r)
    | None => None
    end.
Proof. intros Hd. destruct d; [now elim Hd | reflexivity ..]. Qed.

Lemma string_of_uint_nonnil (d : Decimal.uint) :
  d <> Decimal.Nil -> NilZero.string_of_uint d = NilEmpty.string_of_uint d.
Proof. intros Hd. destruct d; [now elim Hd | reflexivity ..]. Qed.

Lemma load_value_int (n : Z) (rest : string) :
  ends_number rest ->
  Json.load_value (PyStr.of_int n ++ rest) = Some (PInt n, rest).
Proof.
  intros Hrest. unfold PyStr.of_int.
  destruct n as [|p|p]; cbn [Z.to_int NilZero.string_of_int].
  - rewrite (load_value_uint (Decimal.D0 Decimal.Nil)) by discriminate.
    cbn [NilEmpty.string_of_uint String.append].
    now rewrite load_number_zero.
  - pose proof (Unsigned.to_uint_nonnil p) as Hnil.
    rewrite string_of_uint_nonnil, load_value_uint by exact Hnil.
    now rewrite load_number_to_uint.
  - pose proof (Unsigned.to_uint_nonnil p) as Hnil.
    rewrite string_of_uint_nonnil by exact Hnil.
    cbn [String.append Json.load_value].
    change (Ascii.eqb "-" Json.dquote) with false.
    change (Ascii.eqb "-" "-") with true. cbn iota.
    now rewrite load_number_to_uint.
Qed.

Lemma load_value_string (s rest : string) :
  Json.load_value (Json.dump_string s ++ rest) = Some (PStr s, rest).
Proof.
  rewrite dump_string_cons. cbn [Json.load_value].
  change (Ascii.eqb Json.dquote Json.dquote) with true. cbn iota.
  now rewrite load_string_escape_all.
Qed.

(** What may follow a value: a comma or a line break. *)
Lemma load_value_dump (v : pyval) (rest : string) :
  ends_number rest ->
  Json.load_value (Json.dump_value v ++ rest) = Some (v, rest).
Proof.
  intros Hrest. destruct v as [s | n]; cbn [Json.dump_value].
  - apply load_value_string.
  - now apply load_value_int.
Qed.

Lemma skip_ws_value (v : pyval) (rest : string) :
  Json.skip_ws (Json.dump_value v ++ rest) = (Json.dump_value v ++ rest)%string.
Proof.
  destruct v as [s | n]; cbn [Json.dump_value].
  - now rewrite dump_string_cons.
  - unfold PyStr.of_int.
    destruct n as [|p|p]; cbn [Z.to_int NilZero.string_of_int];
      try reflexivity;
      pose proof (Unsigned.to_uint_nonnil p) as Hnil;
      destruct (Pos.to_uint p); [now elim Hnil | reflexivity ..].
Qed.

(** One member of the object: how the text of an item starts and what
    the reader is left with after its value. *)
Lemma load_member (k : string) (v : pyval) (tail : string) :
  ends_number tail ->
  exists r1,
    Json.load_key
      (Json.skip_ws (Json.newline ++ Json.dump_item (k, v) ++ tail))
    = Some (k, String ":" r1) /\
    Json.load_value (Json.skip_ws r1) = Some (v, tail).
Proof.
  intros Htail. exists (String " " (Json.dump_value v ++ tail)).
  unfold Json.dump_item. cbn [fst snd].
  rewrite !append_assoc, dump_string_cons. split.
  - cbn [Json.newline String.append Json.skip_ws PyStr.lstrip_by].
    cbn -[Json.load_string Json.escape_all Json.dump_value String.append].
    apply load_string_escape_all.
  - change (Json.skip_ws (String " " (Json.dump_value v ++ tail)))
      with (Json.skip_ws (Json.dump_value v ++ tail)).
    rewrite skip_ws_value. now apply load_value_dump.
Qed.

Lemma load_members_more (fuel : nat) (k : string) (v : pyval) (r4 : string)
  (acc : PyDict.dict pyval) :
  Json.load_members (S fuel)
    (Json.newline ++ Json.dump_item (k, v) ++ String "," r4) acc
  = Json.load_members fuel r4 (PyDict.set acc k v).
Proof.
  destruct (load_member k v (String "," r4)) as (r1 & Hkey & Hval);
    [reflexivity |].
  cbn [Json.load_members]. rewrite Hkey.
  change (Json.skip_ws (String ":" r1)) with (String ":" r1).
  cbn iota. rewrite Hval. reflexivity.
Qed.

Lemma load_members_last (fuel : nat) (k : string) (v : pyval)
  (acc : PyDict.dict pyval) :
  Json.load_members (S fuel)
    (Json.newline ++ Json.dump_item (k, v) ++ Json.newline ++ "}") acc
  = Document (PyDict.set acc k v).
Proof.
  destruct (load_member k v (Json.newline ++ "}")) as (r1 & Hkey & Hval);
    [reflexivity |].
  cbn [Json.load_members]. rewrite Hkey.
  change (Json.skip_ws (String ":" r1)) with (String ":" r1).
  cbn iota. rewrite Hval. reflexivity.
Qed.

Lemma members_text_cons (item next : string * pyval)
  (doc : PyDict.dict pyval) :
  members_text (item :: next :: doc)
  = (Json.dump_item item
     ++ String "," (Json.newline ++ members_text (next :: doc)))%string.
Proof. reflexivity. Qed.

Lemma load_members_dump (doc : PyDict.dict pyval) :
  forall (item : string * pyval) (fuel : nat) (acc : PyDict.dict pyval),
    List.length doc < fuel ->
    Json.load_members fuel
      (Json.newline ++ members_text (item :: doc) ++ Json.newline ++ "}") acc
    = Document (PyDict.update acc (item :: doc)).
Proof.
  induction doc as [|next doc IH]; intros [k v] fuel acc Hfuel;
    (destruct fuel as [|fuel]; [inversion Hfuel |]).
  - apply load_members_last.
  - rewrite members_text_cons, !append_assoc.
    cbn [String.append].
    rewrite load_members_more, append_assoc.
    rewrite IH by (simpl in Hfuel; lia).
    reflexivity.
Qed.

Lemma length_append (a b : string) :
  String.length (a ++ b) = String.length a + String.length b.
Proof. induction a as [|c a IH]; simpl; [reflexivity | now rewrite IH]. Qed.

Lemma members_text_length (doc : PyDict.dict pyval) :
  List.length doc <= String.length (members_text doc).
Proof.
  induction doc as [|item doc IH]; [apply Nat.le_0_l |].
  destruct doc as [|next doc].
  - simpl. lia.
  - rewrite members_text_cons, length_append.
    cbn [String.length List.length] in *. rewrite length_append. lia.
Qed.

Lemma members_text_head (item : string * pyval) (doc : PyDict.dict pyval)
  (tail : string) :
  exists tail',
    (members_text (item :: doc) ++ tail)%string
    = (Json.dump_item item ++ tail')%string.
Proof.
  destruct doc as [|next doc].
  - exists tail. reflexivity.
  - eexists. rewrite members_text_cons, append_assoc. reflexivity.
Qed.

Lemma skip_ws_member_head (item : string * pyval) (tail : string) :
  exists x,
    Json.skip_ws (Json.newline ++ Json.dump_item item ++ tail)
    = String Json.dquote x.
Proof.
  destruct item as [k v]. unfold Json.dump_item. cbn [fst snd].
  rewrite !append_assoc, dump_string_cons. eexists. reflexivity.
Qed.

(** The reader gives back the document the writer was given, when no key
    comes twice. *)
Lemma json_load_dump (doc : PyDict.dict pyval) :
  NoDup (PyDict.keys doc) -> Json.load (Json.dump doc) = Document doc.
Proof.
  intros Hnd. destruct doc as [|item doc]; [reflexivity |].
  unfold Json.dump. fold (members_text (item :: doc)).
  set (r := (Json.newline ++ members_text (item :: doc)
             ++ Json.newline ++ "}")%string).
  change (Json.load ("{" ++ r)) with
    (match Json.skip_ws r with
     | String "}" r' =>
         match Json.skip_ws r' with
         | EmptyString => Document []
         | _ => Malformed
         end
     | _ => Json.load_members (String.length r) r []
     end).
  assert (Hhead : exists x, Json.skip_ws r = String Json.dquote x).
  { subst r.
    destruct (members_text_head item doc (Json.newline ++ "}")) as [t Ht].
    rewrite Ht. apply skip_ws_member_head. }
  destruct Hhead as [x Hx]. rewrite Hx.
  change (Json.load_members (String.length r) r [] = Document (item :: doc)).
  subst r. rewrite load_members_dump.
  - f_equal. apply (update_fresh [] (item :: doc)). exact Hnd.
  - rewrite !length_append. pose proof (members_text_length (item :: doc)).
    cbn [List.length] in *. lia.
Qed.

Lemma capture_keys_NoDup (self : XMRigGUI) : NoDup (PyDict.keys (capture self)).
Proof.
  unfold capture.
  assert (H : forall l doc, NoDup (PyDict.keys doc) ->
                            NoDup (PyDict.keys (fold_left save_step l doc))).
  { induction l as [|[k w] l IH]; intros doc Hnd; [exact Hnd |].
    cbn [fold_left]. apply IH. rewrite save_step_stored.
    destruct (stored w); [now apply NoDup_keys_set | exact Hnd]. }
  apply H. constructor.
Qed.

(** With the JSON text as written above, saving and loading back needs
    no assumption on the file: with distinct keys, every input comes
    back as it was but for blank texts, emptied. *)
Corollary save_then_load_json (self : XMRigGUI) :
  form_keys_unique self ->
  save_then_load Json.dump Json.load self
  = Outcome
      (with_tabs (with_settings self (capture self))
         (map (map reload_item) (tabs self)))
      [] None.
Proof.
  intros Hu. apply save_then_load_outcome; [exact Hu |].
  apply json_load_dump, capture_keys_NoDup.
Qed.

(** * Further properties *)

(** ** The form renderer *)

Lemma new_widget_fresh (row : option_row) (w : widget) :
  new_widget row = Some w -> fresh w.
Proof.
  unfold new_widget.
  destruct (widget_type row) as [|[word | choices] more];
    [intros H; inversion H; exact I | | discriminate].
  destruct (word =? "checkbox"); [intros H; inversion H; reflexivity |].
  destruct (word =? "dropdown"); [| intros H; inversion H; exact I].
  destruct more as [|[? | [|first others]] ?]; try discriminate.
  intros H. inversion H. reflexivity.
Qed.

(** What [add_options] registers under a key: the widget made for a row
    of that key, or what the registry held before. *)
Lemma add_options_get (rows : list option_row) :
  forall (entries result : PyDict.dict widget) (k : string) (w : widget),
    add_options entries rows = Some result ->
    PyDict.get result k = Some w ->
    PyDict.get entries k = Some w \/
    exists row, In row rows /\ key row = k /\ new_widget row = Some w.
Proof.
  induction rows as [|row rows IH]; intros entries result k w Hadd Hget.
  - inversion Hadd; subst. now left.
  - cbn [add_options] in Hadd.
    destruct (new_widget row) as [w0|] eqn:Hnew; [| discriminate].
    destruct (IH _ _ _ _ Hadd Hget) as [Hold | (r & Hin & Hk & Hw)].
    + destruct (String.eqb_spec (key row) k) as [Heq | Hne].
      * subst k. rewrite get_set_same in Hold. inversion Hold; subst.
        right. exists row. repeat split; [now left | exact Hnew].
      * rewrite get_set_other in Hold by exact Hne. now left.
    + right. exists r. repeat split; [now right | exact Hk | exact Hw].
Qed.

(** X1.  Rows with distinct keys that the registry does not hold yet,
    each with a widget to make, are registered one input per row, in
    the order of the table, after what the registry held. *)
Theorem add_options_registers_rows (rows : list option_row)
  (ws : list widget) (entries : PyDict.dict widget) :
  NoDup (PyDict.keys entries ++ map key rows) ->
  Forall2 (fun row w => new_widget row = Some w) rows ws ->
  add_options entries rows = Some (entries ++ combine (map key rows) ws).
Proof.
  intros Hnd Hall. revert entries Hnd.
  induction Hall as [|row w rows ws Hnew _ IH]; intros entries Hnd.
  - simpl. now rewrite app_nil_r.
  - cbn [add_options map combine]. rewrite Hnew.
    assert (Hk : ~ In (key row) (PyDict.keys entries)).
    { simpl in Hnd. apply NoDup_remove_2 in Hnd. intros Hin. apply Hnd.
      apply in_or_app. now left. }
    rewrite (set_fresh _ _ _ Hk), IH.
    + now rewrite <- app_assoc.
    + unfold PyDict.keys in *. rewrite map_app, <- app_assoc. exact Hnd.
Qed.

Lemma add_options_registers_rows_witness :
  NoDup (PyDict.keys (@PyDict.empty widget) ++ map key sample_rows) /\
  add_options PyDict.empty sample_rows
  = Some [("http-host", Entry "127.0.0.1"); ("syslog", IntVar 0);
          ("randomx-mode", Combobox ["auto"; "fast"; "light"] "auto")].
Proof.
  assert (Hnd : NoDup (PyDict.keys (@PyDict.empty widget)
                       ++ map key sample_rows)).
  { apply distinct_NoDup. reflexivity. }
  split; [exact Hnd |].
  apply (add_options_registers_rows sample_rows
           [Entry "127.0.0.1"; IntVar 0;
            Combobox ["auto"; "fast"; "light"] "auto"] PyDict.empty Hnd).
  repeat constructor.
Defined.

(** X2.  In a registry [add_options] has filled from nothing, every
    checkbox is unchecked and every dropdown shows the first of its
    choices, whatever the rows say after the kind. *)
Theorem add_options_fresh (rows : list option_row)
  (result : PyDict.dict widget) (k : string) (w : widget) :
  add_options PyDict.empty rows = Some result ->
  PyDict.get result k = Some w ->
  fresh w /\ exists row, In row rows /\ key row = k.
Proof.
  intros Hadd Hget.
  destruct (add_options_get rows _ _ _ _ Hadd Hget)
    as [Hold | (row & Hin & Hk & Hw)]; [discriminate Hold |].
  split; [now apply (new_widget_fresh row) | now exists row].
Qed.

Lemma add_options_fresh_witness :
  add_options PyDict.empty
    [Row "Syslog" "-S" "syslog" [XText "checkbox"; XText "1"]]
  = Some [("syslog", IntVar 0)] /\
  fresh (IntVar 0).
Proof.
  split; [reflexivity |].
  apply (add_options_fresh
           [Row "Syslog" "-S" "syslog" [XText "checkbox"; XText "1"]]
           [("syslog", IntVar 0)] "syslog" (IntVar 0) eq_refl eq_refl).
Defined.

(** X3.  A catalog with a dropdown row whose choices are missing or
    empty cannot be rendered: [add_options] fails, wherever the row
    stands and whatever the other rows are. *)
Theorem add_options_dropdown_without_choices (rows : list option_row)
  (row : option_row) (entries : PyDict.dict widget) :
  In row rows ->
  dropdown_without_choices row ->
  add_options entries rows = None.
Proof.
  intros Hin Hrow. revert entries.
  induction rows as [|r rows IH]; intros entries; [destruct Hin |].
  cbn [add_options].
  destruct Hin as [-> | Hin].
  - assert (Hnew : new_widget row = None).
    { unfold new_widget. destruct Hrow as [-> | [more ->]]; reflexivity. }
    now rewrite Hnew.
  - destruct (new_widget r); [now apply IH | reflexivity].
Qed.

Lemma add_options_dropdown_without_choices_witness :
  dropdown_without_choices (Row "ASM" "--asm" "asm" [XText "dropdown"]) /\
  add_options PyDict.empty
    [Row "Threads" "-t" "threads" [];
     Row "ASM" "--asm" "asm" [XText "dropdown"]]
  = None.
Proof.
  assert (Hrow : dropdown_without_choices
                   (Row "ASM" "--asm" "asm" [XText "dropdown"])).
  { left. reflexivity. }
  split; [exact Hrow |].
  apply (add_options_dropdown_without_choices _
           (Row "ASM" "--asm" "asm" [XText "dropdown"]));
    [right; left; reflexivity | exact Hrow].
Defined.

(** X4.  [__init__] renders the six catalogs without raising: the form
    opens with an empty document, no process, 38 inputs under keys that
    are all distinct, and each input as [add_options] makes it. *)
Theorem init_opens :
  exists self,
    init = Some self /\
    settings self = PyDict.empty /\
    process self = None /\
    form_keys_unique self /\
    List.length (PyDict.items (merged_entries self)) = 38 /\
    Forall (fun item => fresh (snd item)) (PyDict.items (merged_entries self)).
Proof.
  eexists. split; [reflexivity |].
  split; [reflexivity |]. split; [reflexivity |].
  split; [apply distinct_NoDup; vm_compute; reflexivity |].
  split; [reflexivity |].
  vm_compute. repeat constructor.
Qed.

(** ** The process controller, further *)

Lemma with_process_same (self : XMRigGUI) :
  with_process self (process self) = self.
Proof. now destruct self. Qed.

Lemma with_process_twice (self : XMRigGUI) (p q : option handle) :
  with_process (with_process self p) q = with_process self q.
Proof. reflexivity. Qed.

(** X5.  With the terminal installed and no live process tracked (no
    handle, or the handle of a process that has exited), [run_xmrig]
    calls [Popen] once with the terminal's argument vector, shows
    nothing, and tracks the new child in place of any stale handle;
    document and inputs stay as they were. *)
Theorem run_xmrig_spawns (sys : os) (self : XMRigGUI) :
  mate_terminal sys = true ->
  (forall p, process self = Some p -> poll sys p <> None) ->
  events (run_xmrig sys self)
    = [Popen ["mate-terminal"; "--"; "bash"; "-c";
              (PyStr.join " " (build_command self) ++ "; exec bash")%string]]
  /\
  after (run_xmrig sys self) = with_process self (Some (child sys)) /\
  process (after (run_xmrig sys self)) = Some (child sys) /\
  settings (after (run_xmrig sys self)) = settings self /\
  tabs (after (run_xmrig sys self)) = tabs self /\
  raised (run_xmrig sys self) = None.
Proof.
  intros Hterm Hdead. unfold run_xmrig. rewrite Hterm.
  destruct (process self) as [p|] eqn:Hp.
  - destruct (poll sys p) eqn:Hpoll.
    + simpl. repeat split.
    + exfalso. apply (Hdead p eq_refl). exact Hpoll.
  - simpl. repeat split.
Qed.

Lemma run_xmrig_spawns_witness :
  mate_terminal (all_exited true) = true /\
  process (tracking 7) = Some 7 /\
  poll (all_exited true) 7 = Some 0%Z /\
  events (run_xmrig (all_exited true) (tracking 7))
    = [Popen ["mate-terminal"; "--"; "bash"; "-c";
              "./xmrig --url=pool:3333 --keepalive; exec bash"]] /\
  process (after (run_xmrig (all_exited true) (tracking 7))) = Some 2.
Proof.
  split; [reflexivity |]. split; [reflexivity |]. split; [reflexivity |].
  destruct (run_xmrig_spawns (all_exited true) (tracking 7))
    as (He & _ & Hp & _); [reflexivity | | ].
  - intros p _. discriminate.
  - split; [exact He | exact Hp].
Defined.

(** X6.  Starting with no process, a successful [run_xmrig] followed by
    [stop_xmrig] terminates the child just spawned, reports the stop and
    leaves the object exactly as it was before the two calls. *)
Theorem run_then_stop (sys : os) (self : XMRigGUI) :
  process self = None ->
  mate_terminal sys = true ->
  events (stop_xmrig (after (run_xmrig sys self)))
    = [terminate (child sys); showinfo "Info" "XMRig stopped."] /\
  after (stop_xmrig (after (run_xmrig sys self))) = self.
Proof.
  intros Hnone Hterm. unfold run_xmrig. rewrite Hnone, Hterm.
  cbn [after]. unfold stop_xmrig. cbn [process with_process after events].
  split; [reflexivity |].
  rewrite with_process_twice, <- Hnone. apply with_process_same.
Qed.

Lemma run_then_stop_witness :
  process idle_form = None /\
  mate_terminal (all_alive true) = true /\
  events (stop_xmrig (after (run_xmrig (all_alive true) idle_form)))
    = [terminate 2; showinfo "Info" "XMRig stopped."] /\
  after (stop_xmrig (after (run_xmrig (all_alive true) idle_form)))
  = idle_form.
Proof.
  split; [reflexivity |]. split; [reflexivity |].
  apply (run_then_stop (all_alive true) idle_form); reflexivity.
Defined.

(** X7.  After one [stop_xmrig], whatever the object was, a second one
    only warns that nothing runs: it calls [terminate] on nothing and
    changes nothing. *)
Theorem stop_xmrig_twice (self : XMRigGUI) :
  stop_xmrig (after (stop_xmrig self))
  = Outcome (after (stop_xmrig self))
      [showwarning "Warning" "XMRig is not running."] None.
Proof.
  unfold stop_xmrig. destruct (process self) as [p|] eqn:Hp.
  - reflexivity.
  - cbn [after]. now rewrite Hp.
Qed.

(** ** The command line, further *)

Lemma collect_step_tokens (command : list string) (item : string * widget) :
  collect_step command item = command ++ tokens item.
Proof.
  unfold tokens, collect_step. destruct item as [k w].
  repeat match goal with
         | |- context [if ?b then _ else _] => destruct b
         end; simpl; auto using app_nil_r.
Qed.

Lemma collect_tokens (l : list (string * widget)) (command : list string) :
  collect l command = command ++ flat_map tokens l.
Proof.
  revert command. induction l as [|item l IH]; intros command.
  - simpl. now rewrite app_nil_r.
  - rewrite collect_cons, IH, collect_step_tokens. simpl.
    now rewrite <- app_assoc.
Qed.

Lemma tokens_at_most_one (item : string * widget) :
  List.length (tokens item) <= 1.
Proof.
  unfold tokens, collect_step. destruct item as [k w].
  repeat match goal with
         | |- context [if ?b then _ else _] => destruct b
         end; simpl; lia.
Qed.

(** X8.  The command [run_xmrig] assembles is ["./xmrig"] followed by
    what each input of the merged registry adds, in the order of the
    registry, each input adding one token or none; its length is at
    most one more than the number of inputs. *)
Theorem build_command_in_order (self : XMRigGUI) :
  build_command self
  = "./xmrig" :: flat_map tokens (PyDict.items (merged_entries self)) /\
  Forall (fun item => List.length (tokens item) <= 1)
    (PyDict.items (merged_entries self)) /\
  List.length (build_command self)
  <= 1 + List.length (PyDict.items (merged_entries self)).
Proof.
  unfold build_command. rewrite collect_tokens. split; [reflexivity |].
  split.
  - apply Forall_forall. intros item _. apply tokens_at_most_one.
  - simpl. apply le_n_S.
    induction (PyDict.items (merged_entries self)) as [|item l IH];
      [apply Nat.le_0_l |].
    simpl. rewrite length_app.
    pose proof (tokens_at_most_one item). lia.
Qed.

(** X9.  A text made of blanks only is treated two ways: [save_settings]
    leaves its key out of the document, yet [run_xmrig] passes it on the
    command line as [--key=value], blanks included. *)
Theorem blank_text_run_not_saved (self : XMRigGUI) (k : string) (w : widget)
  (v : string) :
  PyDict.get (merged_entries self) k = Some w ->
  displays w v ->
  v <> "" ->
  PyStr.strip v = "" ->
  PyDict.get (capture self) k = None /\
  In ("--" ++ k ++ "=" ++ v)%string (build_command self).
Proof.
  intros Hget Hw Hne Hblank. split.
  - rewrite capture_get, Hget. unfold stored. unfold displays in Hw.
    now rewrite Hw, Hblank.
  - destruct (merged_entries_split self k w Hget) as (before & rest & Hitems).
    unfold build_command. rewrite Hitems, collect_app, collect_cons.
    rewrite (collect_step_text _ _ _ _ Hw).
    apply String.eqb_neq in Hne. rewrite Hne.
    apply collect_keeps, in_or_app. right. now left.
Qed.

Lemma blank_text_run_not_saved_witness :
  PyDict.get (merged_entries spaces_form) "pass" = Some (Entry "  ") /\
  PyStr.strip "  " = "" /\
  PyDict.get (capture spaces_form) "pass" = None /\
  In "--pass=  " (build_command spaces_form).
Proof.
  split; [reflexivity |]. split; [reflexivity |].
  apply (blank_text_run_not_saved spaces_form "pass" (Entry "  ") "  ");
    [reflexivity | reflexivity | discriminate | reflexivity].
Defined.

(** ** The settings store, further *)

Lemma fold_save_step_app (l : list (string * widget))
  (doc : PyDict.dict pyval) :
  NoDup (PyDict.keys doc ++ PyDict.keys l) ->
  fold_left save_step l doc = doc ++ flat_map stored_item l.
Proof.
  revert doc. induction l as [|[k w] l IH]; intros doc Hnd.
  - simpl. now rewrite app_nil_r.
  - cbn [fold_left flat_map]. rewrite save_step_stored.
    unfold stored_item at 1. cbn [fst snd].
    simpl in Hnd.
    destruct (stored w) as [v|].
    + assert (Hk : ~ In k (PyDict.keys doc)).
      { apply NoDup_remove_2 in Hnd. intros Hin. apply Hnd.
        apply in_or_app. now left. }
      rewrite (set_fresh _ _ _ Hk), IH.
      * now rewrite <- app_assoc.
      * unfold PyDict.keys in *. rewrite map_app, <- app_assoc. exact Hnd.
    + rewrite IH; [reflexivity |]. now apply NoDup_remove_1 in Hnd.
Qed.

(** X10.  The document [save_settings] keeps lists, in the order of the
    merged registry, the inputs that store something, each under its
    key; nothing of the document held before the call survives. *)
Theorem save_settings_lists_inputs (json_dump : PyDict.dict pyval -> string)
  (self : XMRigGUI) (doc : PyDict.dict pyval) :
  settings (fst (save_settings json_dump (with_settings self doc)))
  = flat_map stored_item (PyDict.items (merged_entries self)).
Proof.
  cbn [save_settings fst settings with_settings].
  change (capture (with_settings self doc)) with (capture self).
  unfold capture. rewrite fold_save_step_app; [reflexivity |].
  apply NoDup_keys_display.
Qed.

(** ** Applying a document, further *)

Section UpdateRelates.
Variable doc : PyDict.dict pyval.
Variable R : string * widget -> string * widget -> Prop.
Hypothesis R_refl : forall item, R item item.
Hypothesis R_update :
  forall k w w', update_widget doc k w = inr w' -> R (k, w) (k, w').

Lemma Forall2_same (l : list (string * widget)) : Forall2 R l l.
Proof. induction l; constructor; [apply R_refl | assumption]. Qed.

Lemma Forall2_same_tabs (ts : list (PyDict.dict widget)) :
  Forall2 (Forall2 R) ts ts.
Proof. induction ts; constructor; [apply Forall2_same | assumption]. Qed.

Lemma update_entries_relates (tab : PyDict.dict widget) :
  Forall2 R tab (fst (update_entries doc tab)).
Proof.
  induction tab as [|[k w] tab IH]; [constructor |].
  cbn [update_entries].
  destruct (update_widget doc k w) as [e | w'] eqn:Hw.
  - simpl. constructor; [apply R_refl | apply Forall2_same].
  - destruct (update_entries doc tab) as [tab' e]. simpl in *.
    constructor; [now apply R_update | exact IH].
Qed.

Lemma update_tabs_relates (ts : list (PyDict.dict widget)) :
  Forall2 (Forall2 R) ts (fst (update_tabs doc ts)).
Proof.
  induction ts as [|tab ts IH]; [constructor |].
  cbn [update_tabs].
  pose proof (update_entries_relates tab) as Htab.
  destruct (update_entries doc tab) as [tab' [e|]]; simpl in *.
  - constructor; [exact Htab | apply Forall2_same_tabs].
  - destruct (update_tabs doc ts) as [ts' e]. simpl in *.
    constructor; assumption.
Qed.

End UpdateRelates.

Lemma settings_with_tabs (self : XMRigGUI) (ts : list (PyDict.dict widget)) :
  settings (with_tabs self ts) = settings self /\
  process (with_tabs self ts) = process self.
Proof.
  unfold with_tabs.
  do 7 (destruct ts as [|? ts]; [split; reflexivity |]).
  split; reflexivity.
Qed.

(** What [update_ui_with_settings] leaves of the tabs is the result of
    its outer loop. *)
Lemma tabs_after_update (self : XMRigGUI) :
  tabs (after (update_ui_with_settings self))
  = fst (update_tabs (settings self) (tabs self)).
Proof.
  unfold update_ui_with_settings.
  pose proof (update_tabs_relates (settings self) (fun _ _ => True)
                (fun _ => I) (fun _ _ _ _ => I) (tabs self)) as Hrel.
  destruct (update_tabs (settings self) (tabs self)) as [ts e].
  cbn [after fst] in *. apply tabs_with_tabs.
  pose proof (Forall2_length Hrel) as Hl. simpl in Hl.
  symmetry. exact Hl.
Qed.

Lemma same_shape_refl (item : string * widget) : same_shape item item.
Proof. destruct item as [k [t | n | vs t]]; split; simpl; auto. Qed.

Lemma update_widget_same_shape (doc : PyDict.dict pyval) (k : string)
  (w w' : widget) :
  update_widget doc k w = inr w' -> same_shape (k, w) (k, w').
Proof.
  destruct w as [t | n | vs t].
  - rewrite update_widget_entry. intros H. inversion H. now split.
  - rewrite update_widget_intvar. cbn zeta.
    destruct (truthy _); [destruct (py_int _) |];
      intros H; inversion H; now split.
  - rewrite update_widget_combobox. intros H. inversion H. now split.
Qed.

Lemma update_ui_shape (self : XMRigGUI) :
  Forall2 (Forall2 same_shape)
    (tabs self) (tabs (after (update_ui_with_settings self))).
Proof.
  rewrite tabs_after_update.
  apply update_tabs_relates;
    [apply same_shape_refl | apply update_widget_same_shape].
Qed.

Lemma same_shape_keys (ts ts' : list (PyDict.dict widget)) :
  Forall2 (Forall2 same_shape) ts ts' ->
  map PyDict.keys ts' = map PyDict.keys ts.
Proof.
  induction 1 as [|tab tab' ts ts' Htab _ IH]; [reflexivity |].
  cbn [map]. f_equal; [| exact IH].
  induction Htab as [|item item' l l' [Hk _] _ IHl]; [reflexivity |].
  unfold PyDict.keys in *. cbn [map]. now rewrite Hk, IHl.
Qed.

Lemma events_update (self : XMRigGUI) :
  events (update_ui_with_settings self) = [].
Proof.
  unfold update_ui_with_settings.
  now destruct (update_tabs (settings self) (tabs self)).
Qed.

Lemma update_ui_frame (self : XMRigGUI) :
  settings (after (update_ui_with_settings self)) = settings self /\
  process (after (update_ui_with_settings self)) = process self.
Proof.
  unfold update_ui_with_settings.
  destruct (update_tabs (settings self) (tabs self)) as [ts e].
  cbn [after]. apply settings_with_tabs.
Qed.

(** X11.  [update_ui_with_settings] never adds, removes, reorders or
    renames an input and never changes its kind or the choices of a
    dropdown, whatever the document holds and even when it raises;
    document and process handle stay as they were. *)
Theorem update_ui_with_settings_keeps_shape (self : XMRigGUI) :
  Forall2 (Forall2 same_shape)
    (tabs self) (tabs (after (update_ui_with_settings self))) /\
  map PyDict.keys (tabs (after (update_ui_with_settings self)))
  = map PyDict.keys (tabs self) /\
  settings (after (update_ui_with_settings self)) = settings self /\
  process (after (update_ui_with_settings self)) = process self.
Proof.
  split; [apply update_ui_shape |].
  split; [apply same_shape_keys, update_ui_shape | apply update_ui_frame].
Qed.

Lemma dropdown_kept_refl (item : string * widget) : dropdown_kept item item.
Proof. split; auto. Qed.

Lemma update_widget_dropdown_kept (doc : PyDict.dict pyval) (k : string)
  (w w' : widget) :
  update_widget doc k w = inr w' -> dropdown_kept (k, w) (k, w').
Proof.
  intros Hw. split; [reflexivity |].
  intros vs t Hold. simpl in *. subst w.
  rewrite update_widget_combobox in Hw. now inversion Hw.
Qed.

(** X12.  [update_ui_with_settings] leaves every dropdown displaying
    what it displayed, also when the document holds a value for its
    key: a combobox is an instance of [tk.Entry], so the entry branch
    takes it, and the entry commands do nothing on a read-only box. *)
Theorem update_ui_with_settings_keeps_dropdowns (self : XMRigGUI) :
  Forall2 (Forall2 dropdown_kept)
    (tabs self) (tabs (after (update_ui_with_settings self))).
Proof.
  rewrite tabs_after_update.
  apply update_tabs_relates;
    [apply dropdown_kept_refl | apply update_widget_dropdown_kept].
Qed.

Lemma update_widget_raises (doc : PyDict.dict pyval) (k : string)
  (w : widget) (e : exn) :
  update_widget doc k w = inl e -> e = ValueError.
Proof.
  destruct w as [t | n | vs t].
  - rewrite update_widget_entry. discriminate.
  - rewrite update_widget_intvar. cbn zeta.
    destruct (truthy _); [| discriminate].
    unfold py_int.
    destruct (PyDict.get_default doc k (PStr "")) as [s | m];
      [destruct (PyStr.to_int s) |]; intros H; inversion H; reflexivity.
  - rewrite update_widget_combobox. discriminate.
Qed.

Lemma update_widget_intvar_ok (doc : PyDict.dict pyval) (k : string) (n : Z)
  (w' : widget) :
  update_widget doc k (IntVar n) = inr w' -> coercible doc k.
Proof.
  rewrite update_widget_intvar. cbn zeta. unfold PyDict.get_default.
  intros H s Hs. rewrite Hs in H. simpl in H.
  destruct (s =? "") eqn:Es; [left; now apply String.eqb_eq |].
  right. simpl in H. destruct (PyStr.to_int s); [discriminate | discriminate H].
Qed.

Lemma update_entries_raised (doc : PyDict.dict pyval)
  (tab : PyDict.dict widget) :
  (snd (update_entries doc tab) = None ->
   forall k n, In (k, IntVar n) tab -> coercible doc k) /\
  (forall e, snd (update_entries doc tab) = Some e -> e = ValueError).
Proof.
  induction tab as [|[k w] tab [IHnone IHsome]];
    [split; [intros _ k n [] | discriminate] |].
  cbn [update_entries].
  destruct (update_widget doc k w) as [e | w'] eqn:Hw.
  - split; [discriminate |].
    intros e' H. inversion H; subst. now apply (update_widget_raises doc k w).
  - destruct (update_entries doc tab) as [tab' e]. simpl in *. split.
    + intros He k' n' [Heq | Hin]; [| now apply (IHnone He k' n')].
      inversion Heq; subst. now apply (update_widget_intvar_ok doc k' n' w').
    + exact IHsome.
Qed.

Lemma update_tabs_raised (doc : PyDict.dict pyval)
  (ts : list (PyDict.dict widget)) :
  (snd (update_tabs doc ts) = None ->
   forall tab k n, In tab ts -> In (k, IntVar n) tab -> coercible doc k) /\
  (forall e, snd (update_tabs doc ts) = Some e -> e = ValueError).
Proof.
  induction ts as [|tab ts [IHnone IHsome]];
    [split; [intros _ tab k n [] | discriminate] |].
  cbn [update_tabs].
  destruct (update_entries_raised doc tab) as [Hnone Hsome].
  destruct (update_entries doc tab) as [tab' [e|]]; simpl in *.
  - split; [discriminate |]. intros e' H. inversion H; subst. now apply Hsome.
  - destruct (update_tabs doc ts) as [ts' e]. simpl in *. split.
    + intros He tab0 k n [<- | Hin]; [now apply Hnone |].
      now apply (IHnone He tab0).
    + exact IHsome.
Qed.

Lemma raised_update (self : XMRigGUI) :
  raised (update_ui_with_settings self)
  = snd (update_tabs (settings self) (tabs self)).
Proof.
  unfold update_ui_with_settings.
  now destruct (update_tabs (settings self) (tabs self)).
Qed.

Lemma update_ui_completes_iff (self : XMRigGUI) :
  raised (update_ui_with_settings self) = None
  <-> checkboxes_coercible self.
Proof.
  rewrite raised_update.
  destruct (update_tabs_raised (settings self) (tabs self)) as [Hnone _].
  split.
  - intros He tab k n. now apply Hnone.
  - intros Hco.
    destruct (update_tabs_applied (settings self) (tabs self) Hco)
      as (ts' & Hts & _).
    now rewrite Hts.
Qed.

Lemma update_ui_raises_ValueError (self : XMRigGUI) :
  raised (update_ui_with_settings self) = None \/
  raised (update_ui_with_settings self) = Some ValueError.
Proof.
  rewrite raised_update.
  destruct (update_tabs_raised (settings self) (tabs self)) as [_ Hsome].
  destruct (snd (update_tabs (settings self) (tabs self))) as [e|];
    [right; f_equal; now apply Hsome | now left].
Qed.

(** X13.  On a document of strings and integers,
    [update_ui_with_settings] completes exactly when [int] accepts what
    the document holds for every checkbox; otherwise what escapes is the
    [ValueError] of [int]. *)
Theorem update_ui_with_settings_raises_iff (self : XMRigGUI) :
  (raised (update_ui_with_settings self) = None
   <-> checkboxes_coercible self) /\
  (raised (update_ui_with_settings self) = None \/
   raised (update_ui_with_settings self) = Some ValueError).
Proof.
  split; [apply update_ui_completes_iff | apply update_ui_raises_ValueError].
Qed.

Lemma update_widget_again (doc : PyDict.dict pyval) (k : string)
  (w w' : widget) :
  update_widget doc k w = inr w' -> update_widget doc k w' = inr w'.
Proof.
  destruct w as [t | n | vs t].
  - rewrite update_widget_entry. intros H. inversion H.
    apply update_widget_entry.
  - rewrite update_widget_intvar. cbn zeta. intros H.
    assert (Hkind : exists m, w' = IntVar m).
    { destruct (truthy _); [destruct (py_int _) |]; inversion H; eauto. }
    destruct Hkind as [m ->]. rewrite update_widget_intvar. exact H.
  - rewrite update_widget_combobox. intros H. inversion H.
    apply update_widget_combobox.
Qed.

Lemma update_entries_again (doc : PyDict.dict pyval)
  (tab tab' : PyDict.dict widget) :
  update_entries doc tab = (tab', None) ->
  update_entries doc tab' = (tab', None).
Proof.
  revert tab'. induction tab as [|[k w] tab IH]; intros tab' H.
  - inversion H. reflexivity.
  - cbn [update_entries] in H.
    destruct (update_widget doc k w) as [e | w'] eqn:Hw; [discriminate |].
    destruct (update_entries doc tab) as [rest e] eqn:Hrest.
    inversion H; subst. cbn [update_entries].
    now rewrite (update_widget_again doc k w w' Hw), (IH rest eq_refl).
Qed.

Lemma update_tabs_again (doc : PyDict.dict pyval)
  (ts ts' : list (PyDict.dict widget)) :
  update_tabs doc ts = (ts', None) -> update_tabs doc ts' = (ts', None).
Proof.
  revert ts'. induction ts as [|tab ts IH]; intros ts' H.
  - inversion H. reflexivity.
  - cbn [update_tabs] in H.
    destruct (update_entries doc tab) as [tab' [e|]] eqn:Htab;
      [discriminate |].
    destruct (update_tabs doc ts) as [rest e] eqn:Hrest.
    inversion H; subst. cbn [update_tabs].
    now rewrite (update_entries_again doc tab tab' Htab), (IH rest eq_refl).
Qed.

(** X14.  Applying the document a second time changes nothing: when
    [update_ui_with_settings] completes, running it again on the object
    it left gives that same object. *)
Theorem update_ui_with_settings_idempotent (self : XMRigGUI) :
  raised (update_ui_with_settings self) = None ->
  update_ui_with_settings (after (update_ui_with_settings self))
  = update_ui_with_settings self.
Proof.
  intros Hr.
  pose proof (tabs_after_update self) as Htabs.
  pose proof (settings_with_tabs self) as Hset.
  rewrite raised_update in Hr.
  unfold update_ui_with_settings in *.
  destruct (update_tabs (settings self) (tabs self)) as [ts e] eqn:Hts.
  cbn [after fst snd] in *. subst e.
  destruct (Hset ts) as [Hs _]. rewrite Hs, Htabs.
  rewrite (update_tabs_again _ _ _ Hts). f_equal.
  assert (Hlen : List.length ts = 6).
  { rewrite <- Htabs. reflexivity. }
  do 6 (destruct ts as [|? ts]; [discriminate Hlen |]).
  destruct ts; [reflexivity | discriminate Hlen].
Qed.

Lemma update_ui_with_settings_idempotent_witness :
  raised (update_ui_with_settings loaded_form) = None /\
  update_ui_with_settings (after (update_ui_with_settings loaded_form))
  = update_ui_with_settings loaded_form.
Proof.
  split; [reflexivity |].
  apply (update_ui_with_settings_idempotent loaded_form). reflexivity.
Defined.

(** ** Loading and saving, further *)

Section StoreFurther.
Variable json_dump : PyDict.dict pyval -> string.
Variable json_load : string -> loaded.

(** X15.  With the file present and holding either a text [json.load]
    rejects or a flat object of strings and integers, [load_settings]
    shows no notice and keeps the process handle and the keys of every
    tab.  A rejected text leaves the object as it was, the decode error
    escaping; such a document replaces the one in memory at once, so it
    stays even when applying it raises, which happens exactly when a
    checkbox finds a string [int] rejects. *)
Theorem load_settings_present_file (text : string) (self : XMRigGUI) :
  events (load_settings json_load (Some text) self) = [] /\
  process (after (load_settings json_load (Some text) self)) = process self /\
  map PyDict.keys (tabs (after (load_settings json_load (Some text) self)))
  = map PyDict.keys (tabs self) /\
  (json_load text = Malformed ->
   after (load_settings json_load (Some text) self) = self /\
   raised (load_settings json_load (Some text) self)
   = Some JSONDecodeError) /\
  (forall doc,
      json_load text = Document doc ->
      settings (after (load_settings json_load (Some text) self)) = doc /\
      (raised (load_settings json_load (Some text) self) = None
       <-> checkboxes_coercible (with_settings self doc)) /\
      (raised (load_settings json_load (Some text) self) = None \/
       raised (load_settings json_load (Some text) self)
       = Some ValueError)).
Proof.
  cbn [load_settings].
  destruct (json_load text) as [doc|] eqn:Hload.
  - pose proof (update_ui_frame (with_settings self doc)) as [Hs Hp].
    split; [apply events_update |]. split; [exact Hp |]. split.
    + apply (same_shape_keys (tabs (with_settings self doc))).
      apply update_ui_shape.
    + split; [discriminate |].
      intros doc' Hdoc. inversion Hdoc; subst doc'.
      split; [exact Hs |].
      split; [apply update_ui_completes_iff |
              apply update_ui_raises_ValueError].
  - split; [reflexivity |]. split; [reflexivity |].
    split; [reflexivity |].
    split; [intros _; split; reflexivity | discriminate].
Qed.

Lemma stored_reloaded (w : widget) : stored (reloaded w) = stored w.
Proof.
  destruct w as [t | n | vs t]; try reflexivity.
  unfold reloaded, stored. simpl.
  destruct (PyStr.strip t =? "") eqn:E; simpl; [reflexivity | now rewrite E].
Qed.

Lemma fold_save_step_reload (l : list (string * widget))
  (doc : PyDict.dict pyval) :
  fold_left save_step (map reload_item l) doc = fold_left save_step l doc.
Proof.
  revert doc. induction l as [|[k w] l IH]; intros doc; [reflexivity |].
  cbn [map fold_left]. rewrite IH. f_equal.
  unfold reload_item. cbn [fst snd].
  now rewrite !save_step_stored, stored_reloaded.
Qed.

(** X16.  Saving, loading back and saving again writes the same
    document as the first save: with distinct keys and a file that
    reads back as written, the saved text is stable. *)
Theorem save_load_save_same (self : XMRigGUI) :
  form_keys_unique self ->
  json_load (json_dump (capture self)) = Document (capture self) ->
  settings (after (save_then_load json_dump json_load self)) = capture self /\
  save_settings json_dump (after (save_then_load json_dump json_load self))
  = (after (save_then_load json_dump json_load self),
     snd (save_settings json_dump self)).
Proof.
  intros Hu Hcodec.
  rewrite (save_then_load_outcome json_dump json_load self Hu Hcodec).
  cbn [after].
  set (self' := with_tabs (with_settings self (capture self))
                  (map (map reload_item) (tabs self))).
  assert (Htabs : tabs self' = map (map reload_item) (tabs self)).
  { apply tabs_with_tabs. now rewrite length_map. }
  assert (Hset : settings self' = capture self).
  { apply (settings_with_tabs (with_settings self (capture self))). }
  assert (Hcap : capture self' = capture self).
  { unfold capture, merged_entries, PyDict.items. rewrite Htabs.
    rewrite !display_fresh.
    - now rewrite <- concat_map, fold_save_step_reload.
    - exact Hu.
    - rewrite map_map.
      erewrite map_ext; [exact Hu |]. intros tab. apply keys_reload. }
  split; [exact Hset |].
  unfold save_settings. rewrite Hcap. f_equal.
Qed.

Lemma same_shape_trans (a b c : string * widget) :
  same_shape a b -> same_shape b c -> same_shape a c.
Proof.
  destruct a as [ka [ta | na | va ta]], b as [kb [tb | nb | vb tb]],
    c as [kc [tc | nc | vc tc]];
    unfold same_shape; simpl; intros [H1 H2] [H3 H4];
    (split; [congruence | try tauto; try congruence]).
Qed.

Lemma Forall2_trans {A : Type} (R : A -> A -> Prop) :
  (forall a b c, R a b -> R b c -> R a c) ->
  forall l1 l2 l3, Forall2 R l1 l2 -> Forall2 R l2 l3 -> Forall2 R l1 l3.
Proof.
  intros Htrans l1 l2 l3 H12. revert l3.
  induction H12 as [|a b l1 l2 Hab _ IH]; intros l3 H23;
    inversion H23; subst; constructor; eauto.
Qed.

Lemma tabs_shape_trans (t1 t2 t3 : list (PyDict.dict widget)) :
  Forall2 (Forall2 same_shape) t1 t2 ->
  Forall2 (Forall2 same_shape) t2 t3 ->
  Forall2 (Forall2 same_shape) t1 t3.
Proof.
  apply Forall2_trans. apply Forall2_trans. apply same_shape_trans.
Qed.

Lemma tabs_shape_refl (ts : list (PyDict.dict widget)) :
  Forall2 (Forall2 same_shape) ts ts.
Proof. apply Forall2_same_tabs, same_shape_refl. Qed.

Lemma press_shape (b : button) (sys : os) (s : session) :
  Forall2 (Forall2 same_shape)
    (tabs (gui s))
    (tabs (gui (fst (fst (press json_dump json_load b sys s))))).
Proof.
  destruct b; cbn [press].
  - apply tabs_shape_refl.
  - cbn [fst gui]. unfold load_settings.
    destruct (param_file s) as [text|]; [| apply tabs_shape_refl].
    destruct (json_load text) as [doc|]; [| apply tabs_shape_refl].
    apply (update_ui_shape (with_settings (gui s) doc)).
  - cbn [fst gui]. unfold run_xmrig.
    destruct (match process (gui s) with
              | Some p => match poll sys p with
                          | Some _ => false
                          | None => true
                          end
              | None => false
              end); [apply tabs_shape_refl |].
    destruct (mate_terminal sys); apply tabs_shape_refl.
  - cbn [fst gui]. unfold stop_xmrig.
    destruct (process (gui s)); apply tabs_shape_refl.
Qed.

(** X17.  However many buttons are clicked, in whatever order and
    whatever the operating system answers, the form keeps its inputs:
    the same keys in the same order in every tab, each input of the same
    kind and each dropdown with the same choices; keys that were all
    distinct stay so. *)
Theorem presses_keep_shape (clicks : list (button * os)) (s : session) :
  Forall2 (Forall2 same_shape)
    (tabs (gui s))
    (tabs (gui (fst (presses json_dump json_load clicks s)))) /\
  (form_keys_unique (gui s) ->
   form_keys_unique (gui (fst (presses json_dump json_load clicks s)))).
Proof.
  assert (Hshape : Forall2 (Forall2 same_shape) (tabs (gui s))
            (tabs (gui (fst (presses json_dump json_load clicks s))))).
  { revert s. induction clicks as [|[b sys] clicks IH]; intros s.
    - apply tabs_shape_refl.
    - cbn [presses].
      pose proof (press_shape b sys s) as Hstep.
      destruct (press json_dump json_load b sys s) as [[s1 shown] e].
      specialize (IH s1).
      destruct (presses json_dump json_load clicks s1) as [s2 later].
      cbn [fst] in *. now apply (tabs_shape_trans _ (tabs (gui s1))). }
  split; [exact Hshape |].
  unfold form_keys_unique. now rewrite (same_shape_keys _ _ Hshape).
Qed.

End StoreFurther.

Lemma save_load_save_same_witness :
  form_keys_unique blank_form /\
  Json.load (Json.dump (capture blank_form)) = Document (capture blank_form) /\
  snd (save_settings Json.dump
         (after (save_then_load Json.dump Json.load blank_form)))
  = snd (save_settings Json.dump blank_form).
Proof.
  split; [exact blank_form_keys_unique |]. split; [reflexivity |].
  destruct (save_load_save_same Json.dump Json.load blank_form
              blank_form_keys_unique eq_refl) as [_ Hsave].
  now rewrite Hsave.
Defined.

(** ** Loading, then running *)

Lemma collect_In_text (l : list (string * widget)) (command : list string)
  (k : string) (w : widget) (v : string) :
  In (k, w) l -> displays w v -> v <> "" ->
  In ("--" ++ k ++ "=" ++ v)%string (collect l command).
Proof.
  intros Hin Hw Hne. apply in_split in Hin.
  destruct Hin as (before & rest & ->).
  rewrite collect_app, collect_cons, (collect_step_text _ _ _ _ Hw).
  apply String.eqb_neq in Hne. rewrite Hne.
  apply collect_keeps, in_or_app. right. now left.
Qed.

Lemma collect_In_checkbox (l : list (string * widget))
  (command : list string) (k : string) (n : Z) :
  In (k, IntVar n) l -> n <> 0%Z ->
  In ("--" ++ k)%string (collect l command).
Proof.
  intros Hin Hne. apply in_split in Hin.
  destruct Hin as (before & rest & ->).
  rewrite collect_app, collect_cons, collect_step_checkbox.
  apply Z.eqb_neq in Hne. rewrite Hne.
  apply collect_keeps, in_or_app. right. now left.
Qed.

Lemma Forall2_In_l {A B : Type} (R : A -> B -> Prop) (l : list A)
  (l' : list B) (a : A) :
  Forall2 R l l' -> In a l -> exists b, In b l' /\ R a b.
Proof.
  induction 1 as [|x y l l' Hxy _ IH]; intros Hin; [destruct Hin |].
  destruct Hin as [-> | Hin].
  - exists y. split; [now left | exact Hxy].
  - destruct (IH Hin) as (b & Hb & HR). exists b. split; [now right | exact HR].
Qed.

(** An input of a tab, after the document has been applied, in the
    merged registry of the object that is left. *)
Lemma applied_in_merged (self : XMRigGUI) (tab : PyDict.dict widget)
  (k : string) (w : widget) :
  form_keys_unique self ->
  checkboxes_coercible self ->
  In tab (tabs self) -> In (k, w) tab ->
  exists w',
    In (k, w')
       (PyDict.items (merged_entries (after (update_ui_with_settings self))))
    /\ applied (settings self) (k, w) (k, w').
Proof.
  intros Hu Hco Htab Hin.
  destruct (update_tabs_applied (settings self) (tabs self) Hco)
    as (ts' & Hts & Hall).
  assert (Htabs : tabs (after (update_ui_with_settings self)) = ts').
  { rewrite tabs_after_update, Hts. reflexivity. }
  destruct (Forall2_In_l _ _ _ tab Hall Htab) as (tab' & Htab' & Happ).
  destruct (Forall2_In_l _ _ _ (k, w) Happ Hin) as ([k' w'] & Hin' & Hitem).
  assert (Hk : k' = k) by (destruct Hitem as [Hk _]; exact Hk).
  subst k'. exists w'. split; [| exact Hitem].
  rewrite merged_entries_unique.
  - rewrite Htabs. unfold PyDict.items. apply in_concat.
    exists tab'. split; assumption.
  - unfold form_keys_unique.
    rewrite (same_shape_keys _ _ (update_ui_shape self)). exact Hu.
Qed.

(** X19.  What a completed load puts into the form is what the next run
    passes on: with distinct keys, a text input whose key holds a
    non-empty text in the document gives [--key=text], and a checkbox
    whose key holds a non-zero integer gives [--key]. *)
Theorem update_then_command (self : XMRigGUI) (tab : PyDict.dict widget)
  (k : string) (w : widget) :
  form_keys_unique self ->
  checkboxes_coercible self ->
  In tab (tabs self) -> In (k, w) tab ->
  (forall t s,
      w = Entry t -> PyDict.get (settings self) k = Some (PStr s) ->
      s <> "" ->
      In ("--" ++ k ++ "=" ++ s)%string
         (build_command (after (update_ui_with_settings self)))) /\
  (forall n m,
      w = IntVar n -> PyDict.get (settings self) k = Some (PInt m) ->
      m <> 0%Z ->
      In ("--" ++ k)%string
         (build_command (after (update_ui_with_settings self)))).
Proof.
  intros Hu Hco Htab Hin.
  destruct (applied_in_merged self tab k w Hu Hco Htab Hin)
    as (w' & Hin' & _ & Happ).
  cbn [fst snd] in Happ. unfold build_command. split.
  - intros t s -> Hget Hne. destruct Happ as [_ Htext].
    rewrite (Htext s Hget) in Hin'.
    now apply (collect_In_text _ _ k (Entry s) s).
  - intros n m -> Hget Hne. destruct Happ as (_ & Hint & _).
    rewrite (Hint m Hget) in Hin'.
    now apply collect_In_checkbox with (n := m).
Qed.

Lemma update_then_command_witness :
  form_keys_unique loaded_form /\
  checkboxes_coercible loaded_form /\
  In (cpu_entries loaded_form) (tabs loaded_form) /\
  In ("threads", Entry "") (cpu_entries loaded_form) /\
  PyDict.get (settings loaded_form) "threads" = Some (PStr "4") /\
  In "--threads=4" (build_command (after (update_ui_with_settings loaded_form))).
Proof.
  assert (Hu : form_keys_unique loaded_form).
  { apply distinct_NoDup. reflexivity. }
  assert (Htab : In (cpu_entries loaded_form) (tabs loaded_form)).
  { right. left. reflexivity. }
  assert (Hin : In ("threads", Entry "") (cpu_entries loaded_form)).
  { left. reflexivity. }
  split; [exact Hu |]. split; [exact loaded_form_coercible |].
  split; [exact Htab |]. split; [exact Hin |]. split; [reflexivity |].
  destruct (update_then_command loaded_form (cpu_entries loaded_form)
              "threads" (Entry "") Hu loaded_form_coercible Htab Hin)
    as [Htext _].
  apply (Htext "" "4"); [reflexivity | reflexivity | discriminate].
Defined.
